(** * invenio-requests: the request aggregate, the requests service and the
      user-moderation service, as a shallow embedding.

    Sources embedded here:
    - [invenio_requests/records/api.py]                    (module [Api])
    - [invenio_requests/services/requests/service.py]      (module [RequestsService])
    - [invenio_requests/services/user_moderation/service.py]
                                                           (module [UserModerationRequestService])

    Python exceptions are values of [Error]; a computation that may raise
    returns a [result]; a method that reads or writes the database or the
    search index is a function of the [World] it runs in. *)

From Stdlib Require Import ZArith Bool List Lia.
From stdpp Require Import base option list strings pretty gmap.

Local Open Scope string_scope.
Local Open Scope Z_scope.

(** ** Exceptions *)

Inductive Error : Type :=
| NoSuchActionError (action : string)      (* invenio_requests.errors *)
| InvalidCreator                           (* services.user_moderation.errors *)
| PermissionDeniedError (action_name : string)
| NoResultFound                            (* sqlalchemy.orm.exc *)
| MultipleResultsFound                     (* sqlalchemy.orm.exc *)
| PyException                              (* a bare [Exception] *)
| PyTypeError
| PyAttributeError
| PyKeyError (key : string)
| UnknownTypeError (type_id : option string)
| UnresolvableReferenceError
| ActionNotExecutableError                 (* named by the specification only *)
| ActionFailure (msg : string).            (* whatever an action's own code raises *)

Inductive result (A : Type) : Type :=
| Ok (a : A)
| Err (e : Error).
Arguments Ok {A} a.
Arguments Err {A} e.

Definition result_bind {A B} (r : result A) (k : A -> result B) : result B :=
  match r with
  | Ok a => k a
  | Err e => Err e
  end.

(** [try: body except (handled): handler] *)
Definition try_except {A} (body : result A) (handled : Error -> bool)
    (handler : result A) : result A :=
  match body with
  | Ok a => Ok a
  | Err e => if handled e then handler else Err e
  end.

Definition is_Ok {A} (r : result A) : bool :=
  match r with Ok _ => true | Err _ => false end.

(** ** Dates

    A [datetime] is its wall-clock reading, counted in microseconds on the
    proleptic calendar, together with its [tzinfo] attribute.  A [tzinfo]
    answers [utcoffset(dt)] with an offset in microseconds or with [None]. *)

Record tzinfo : Type := { utcoffset : Z -> option Z }.

Record datetime : Type := { wall : Z; dt_tzinfo : option tzinfo }.

Definition pytz_utc : tzinfo := {| utcoffset := fun _ => Some 0 |}.

(** [dt.utcoffset()]: [None] when [tzinfo] is [None], else what the zone says. *)
Definition dt_utcoffset (d : datetime) : option Z :=
  match dt_tzinfo d with
  | None => None
  | Some z => utcoffset z (wall d)
  end.

(** A datetime is aware when it has a zone and the zone gives an offset. *)
Definition aware (d : datetime) : bool := bool_decide (is_Some (dt_utcoffset d)).

(** [dt.replace(tzinfo=z)] keeps the wall-clock fields. *)
Definition replace_tzinfo (d : datetime) (z : tzinfo) : datetime :=
  {| wall := wall d; dt_tzinfo := Some z |}.

(** [a < b] on datetimes: two naive values compare their fields, two aware
    values compare their instants, a mixed pair raises [TypeError]. *)
Definition datetime_lt (a b : datetime) : result bool :=
  match dt_utcoffset a, dt_utcoffset b with
  | None, None => Ok (wall a <? wall b)
  | Some oa, Some ob => Ok (wall a - oa <? wall b - ob)
  | _, _ => Err PyTypeError
  end.

(** The instant a datetime denotes on the UTC time line, a naive value being
    read as UTC (which is what [datetime.utcnow()] produces). *)
Definition utc_instant (d : datetime) : Z :=
  match dt_utcoffset d with
  | None => wall d
  | Some o => wall d - o
  end.

(** ** Stored data

    The JSON document of a record is a dict from keys to values; the values
    the request engine reads are strings and one-key entity references such
    as [{"user": "42"}]. *)

Record EntityRef : Type := { ref_kind : string; ref_id : string }.

Inductive JsonVal : Type :=
| JNull
| JStr (s : string)
| JRef (r : EntityRef).

#[global] Instance EntityRef_eq_dec : EqDecision EntityRef.
Proof. solve_decision. Defined.

#[global] Instance JsonVal_eq_dec : EqDecision JsonVal.
Proof. solve_decision. Defined.

Definition UUID : Type := string.   (* a UUID in its canonical text form *)

(** A row of [RequestMetadata] (the [model_cls] of [Request]). *)
Record RequestMetadata : Type := {
  model_id : UUID;                       (* primary key [id] *)
  external_id : option string;           (* column [external_id], nullable *)
  is_deleted : bool;
  model_data : gmap string JsonVal;      (* [model.data] *)
  model_expires_at : option datetime;
}.

(** A [Request] object, built as [cls(model.data, model=model)]. *)
Record Request : Type := {
  data : gmap string JsonVal;
  model : RequestMetadata;
}.

(** The database table and the search index. *)
Record World : Type := {
  db : list RequestMetadata;
  search_index : gmap string (gmap string JsonVal);
}.

(** ** Computations that may raise and may change the world *)

Definition M (A : Type) : Type := World -> result A * World.

Definition ret {A} (a : A) : M A := fun w => (Ok a, w).
Definition raise {A} (e : Error) : M A := fun w => (Err e, w).
Definition bind {A B} (m : M A) (k : A -> M B) : M B :=
  fun w => match m w with
           | (Ok a, w') => k a w'
           | (Err e, w') => (Err e, w')
           end.
Definition lift {A} (r : result A) : M A := fun w => (r, w).
Definition reads {A} (f : World -> result A) : M A := fun w => (f w, w).

Notation "'let*' x ':=' c 'in' k" := (bind c (fun x => k))
  (at level 10, x name, c at level 100, k at level 200).
Notation "c ';;' k" := (bind c (fun _ => k))
  (at level 100, k at level 200, right associativity).
Notation "'let?' x ':=' c 'in' k" := (result_bind c (fun x => k))
  (at level 10, x name, c at level 100, k at level 200).

(** ** Identities (flask_principal / invenio_access) *)

Record Identity : Type := {
  identity_id : option string;
  provides : list string;
}.

Definition system_user_id : string := "system".

Definition system_identity : Identity :=
  {| identity_id := Some system_user_id; provides := ["system_process"] |}.

(** ** Request types and actions

    The action classes live in [customizations/], outside the files embedded
    here; an [Action] is what [Request] uses of them: the object built by the
    registered constructor from the request, with its two methods. *)

Record Action : Type := {
  can_execute : Identity -> bool;
  execute : Identity -> M Request;
}.

Record RequestType : Type := {
  type_id : string;
  available_actions : gmap string (Request -> Action);
}.

(** The request type registry: type id to descriptor. *)
Abbreviation Registry := (gmap string RequestType).

(** ** records/api.py *)

Module Api.

(** [expires_at = ModelField("expires_at")] *)
Definition expires_at (self : Request) : option datetime :=
  model_expires_at (model self).

(** The [now] operand of the comparison in [is_expired]: [utcnow()], made
    aware when [d] is aware. *)
Definition comparison_now (utcnow : Z) (d : datetime) : datetime :=
  let now := {| wall := utcnow; dt_tzinfo := None |} in
  match dt_tzinfo d with
  | Some z =>
      match utcoffset z (wall d) with
      | Some _ => replace_tzinfo now pytz_utc
      | None => now
      end
  | None => now
  end.

(** [Request.is_expired]; [utcnow] is the reading of [datetime.utcnow()]. *)
Definition is_expired (utcnow : Z) (self : Request) : result bool :=
  match expires_at self with
  | None => Ok false
  | Some d => datetime_lt d (comparison_now utcnow d)
  end.

(** [request_type = RequestTypeField("request_type_id")]: the descriptor
    registered under the id stored in the document. *)
Definition request_type (reg : Registry) (self : Request) : result RequestType :=
  match data self !! "request_type_id" with
  | Some (JStr t) =>
      match reg !! t with
      | Some T => Ok T
      | None => Err (UnknownTypeError (Some t))
      end
  | _ => Err (UnknownTypeError None)
  end.

(** [d[key]] on the action table, raising [KeyError]. *)
Definition getitem (d : gmap string (Request -> Action)) (key : string)
    : result (Request -> Action) :=
  match d !! key with
  | Some c => Ok c
  | None => Err (PyKeyError key)
  end.

Definition is_KeyError (e : Error) : bool :=
  match e with PyKeyError _ => true | _ => false end.

(** [Request.get_action] *)
Definition get_action (reg : Registry) (self : Request) (action_name : string)
    : result Action :=
  try_except
    (let? T := request_type reg self in
     let? ctor := getitem (available_actions T) action_name in
     Ok (ctor self))
    is_KeyError
    (Err (NoSuchActionError action_name)).

(** [Request.can_execute_action] *)
Definition can_execute_action (reg : Registry) (self : Request)
    (action_name : string) (identity : Identity) : result bool :=
  let? a := get_action reg self action_name in
  Ok (can_execute a identity).

(** [Request.execute_action] *)
Definition execute_action (reg : Registry) (self : Request)
    (action_name : string) (identity : Identity) : M Request :=
  let* a := lift (get_action reg self action_name) in
  execute a identity.

(** Identifiers as callers pass them: [None], a string, or a [UUID]. *)
Inductive PyId : Type :=
| IdNone
| IdStr (s : string)
| IdUUID (u : UUID).

(** [str(id_)] *)
Definition str (id_ : PyId) : string :=
  match id_ with
  | IdNone => "None"
  | IdStr s => s
  | IdUUID u => u
  end.

(** [filter_by(external_id=v)]: a NULL column equals nothing. *)
Definition external_id_is (v : string) (m : RequestMetadata) : bool :=
  match external_id m with
  | Some e => bool_decide (e = v)
  | None => false
  end.

(** [filter_by(id=id_)]: the primary key is never NULL, so [None] matches
    no row; a string is read as the text of a UUID. *)
Definition id_is (id_ : PyId) (m : RequestMetadata) : bool :=
  match id_ with
  | IdNone => false
  | IdStr s => bool_decide (model_id m = s)
  | IdUUID u => bool_decide (model_id m = u)
  end.

(** [query.filter(model_cls.is_deleted != True)] *)
Definition not_deleted (m : RequestMetadata) : bool := negb (is_deleted m).

(** [query.one()] *)
Definition one (rows : list RequestMetadata) : result RequestMetadata :=
  match rows with
  | [] => Err NoResultFound
  | [m] => Ok m
  | _ :: _ :: _ => Err MultipleResultsFound
  end.

Definition is_Multiple_or_NoResult (e : Error) : bool :=
  match e with
  | MultipleResultsFound | NoResultFound => true
  | _ => false
  end.

(** The two queries of [get_record]. *)
Definition query_by_external_id (table : list RequestMetadata) (id_ : PyId)
    (with_deleted : bool) : list RequestMetadata :=
  let query := List.filter (external_id_is (str id_)) table in
  if negb with_deleted then List.filter not_deleted query else query.

Definition query_by_id (table : list RequestMetadata) (id_ : PyId)
    (with_deleted : bool) : list RequestMetadata :=
  let query := List.filter (id_is id_) table in
  if negb with_deleted then List.filter not_deleted query else query.

(** [Request.get_record].  [query.one()] returns a row or raises, so the
    [model is None] branch of the source is never taken and the result is
    always a request. *)
Definition get_record (table : list RequestMetadata) (id_ : PyId)
    (with_deleted : bool) : result Request :=
  let? model :=
    try_except
      (one (query_by_external_id table id_ with_deleted))
      is_Multiple_or_NoResult
      (one (query_by_id table id_ with_deleted)) in
  Ok {| data := model_data model; model := model |}.

(** [class RequestEventType(Enum)], with [COMMENT = "C"] and
    [DELETED_COMMENT = "D"]. *)
Inductive RequestEventType : Type :=
| COMMENT
| DELETED_COMMENT.

(** [member.value] *)
Definition RequestEventType_value (member : RequestEventType) : string :=
  match member with
  | COMMENT => "C"
  | DELETED_COMMENT => "D"
  end.

(** [member.name] *)
Definition RequestEventType_name (member : RequestEventType) : string :=
  match member with
  | COMMENT => "COMMENT"
  | DELETED_COMMENT => "DELETED_COMMENT"
  end.

End Api.

(** ** services/requests/service.py *)

Module RequestsService.
Import Api.

(** A service component; [hasattr(component, "read")] and
    [hasattr(component, "delete")] are [Some]. *)
Record Component : Type := {
  component_read : option (Identity -> Request -> M unit);
  component_delete : option (Identity -> Request -> M unit);
}.

(** The service object: what its methods read from [self] and its
    configuration. *)
Record t : Type := {
  permission_policy : string -> Identity -> option Request -> bool;
  request_type_registry : Registry;
  indexer : bool;                      (* whether [self.indexer] is set *)
  components : list Component;
}.

(** [Service.require_permission]: raise unless the policy allows. *)
Definition require_permission (self : t) (identity : Identity)
    (action_name : string) (record : option Request) : M unit :=
  if permission_policy self action_name identity record
  then ret tt
  else raise (PermissionDeniedError action_name).

(** [registry.lookup(key)] on the value found under a key of the document. *)
Definition registry_lookup (reg : Registry) (key : option JsonVal)
    : result RequestType :=
  match key with
  | Some (JStr t) =>
      match reg !! t with
      | Some T => Ok T
      | None => Err (UnknownTypeError (Some t))
      end
  | _ => Err (UnknownTypeError None)
  end.

(** [_request_from_model]; on [model is None] the attribute access
    [model.data] raises. *)
Definition _request_from_model (self : t) (model : option RequestMetadata)
    : result Request :=
  match model with
  | None => Err PyAttributeError
  | Some m =>
      let? _ := registry_lookup (request_type_registry self)
                  (model_data m !! "request_type") in
      Ok {| data := model_data m; model := m |}
  end.

(** [query.get(id_)]: the row with that primary key, or [None]. *)
Definition query_get (table : list RequestMetadata) (id_ : PyId)
    : option RequestMetadata :=
  List.find (id_is id_) table.

(** [_get_request] *)
Definition _get_request (self : t) (id_ : PyId) : M Request :=
  reads (fun w =>
    let? model :=
      try_except
        (let? m := one (List.filter (external_id_is (str id_)) (db w)) in
         Ok (Some m))
        is_Multiple_or_NoResult
        (Ok (query_get (db w) id_)) in
    _request_from_model self model).

(** The [for component in self.components] loop of [read]. *)
Fixpoint run_read_components (cs : list Component) (identity : Identity)
    (record : Request) : M unit :=
  match cs with
  | [] => ret tt
  | c :: cs' =>
      match component_read c with
      | Some hook => hook identity record;; run_read_components cs' identity record
      | None => run_read_components cs' identity record
      end
  end.

(** [RequestsService.read]; the result item is the request it wraps. *)
Definition read (self : t) (id_ : PyId) (identity : Identity) : M Request :=
  let* request := _get_request self id_ in
  require_permission self identity "read" (Some request);;
  run_read_components (components self) identity request;;
  ret request.

(** The [for component in self.components] loop of [delete]. *)
Fixpoint run_delete_components (cs : list Component) (identity : Identity)
    (record : Request) : M unit :=
  match cs with
  | [] => ret tt
  | c :: cs' =>
      match component_delete c with
      | Some hook => hook identity record;; run_delete_components cs' identity record
      | None => run_delete_components cs' identity record
      end
  end.

Definition mark_deleted (m : RequestMetadata) : RequestMetadata :=
  {| model_id := model_id m;
     external_id := external_id m;
     is_deleted := true;
     model_data := model_data m;
     model_expires_at := model_expires_at m |}.

(** The table with the rows of primary key [key] flagged as deleted. *)
Definition flagged (key : UUID) (table : list RequestMetadata)
    : list RequestMetadata :=
  map (fun m => if bool_decide (model_id m = key) then mark_deleted m else m)
    table.

(** Modelled from the spec: [request.delete()] is [Record.delete] of the
    persistence collaborator, called without [force]; it is the
    collaborator's [mark_deleted(record)]: the row of the record is kept
    and its [is_deleted] flag is set. *)
Definition Record_delete (record : Request) : M unit :=
  fun w =>
    (Ok tt,
     {| db := flagged (model_id (model record)) (db w);
        search_index := search_index w |}).

(** [db.session.commit()]: the rows of [World] are the committed ones
    already. *)
Definition db_session_commit : M unit := ret tt.

(** [self.indexer.delete(request, refresh=True)] *)
Definition indexer_delete (record : Request) : M unit :=
  fun w =>
    (Ok tt,
     {| db := db w;
        search_index := delete (model_id (model record)) (search_index w) |}).

(** [RequestsService.delete] *)
Definition delete (self : t) (id_ : PyId) (identity : Identity) : M bool :=
  let* request := _get_request self id_ in
  require_permission self identity "delete" (Some request);;
  run_delete_components (components self) identity request;;
  Record_delete request;;
  db_session_commit;;
  (if indexer self then indexer_delete request else ret tt);;
  ret true.

(** [RequestsService.execute_action] *)
Definition execute_action (self : t) (action : string) (id_ : PyId)
    (identity : Identity) : M Request :=
  let* request := _get_request self id_ in
  let* ok := lift (can_execute_action (request_type_registry self)
                     request action identity) in
  if negb ok
  then raise PyException
  else Api.execute_action (request_type_registry self) request action identity.

(** [self.indexer.index(request)]: the document of the request is stored
    under its id.  [rebuild_index] makes the call without testing
    [self.indexer]; with no indexer the attribute access raises. *)
Definition indexer_index (self : t) (record : Request) : M unit :=
  if indexer self
  then fun w =>
         (Ok tt,
          {| db := db w;
             search_index :=
               <[model_id (model record) := data record]> (search_index w) |})
  else raise PyAttributeError.

(** The loop of [rebuild_index] over the rows of [query.all()]. *)
Fixpoint rebuild_index_loop (self : t) (rows : list RequestMetadata) : M unit :=
  match rows with
  | [] => ret tt
  | req_meta :: rows' =>
      let* request := lift (_request_from_model self (Some req_meta)) in
      (if negb (is_deleted (model request))
       then indexer_index self request
       else ret tt);;
      rebuild_index_loop self rows'
  end.

(** [RequestsService.rebuild_index] *)
Definition rebuild_index (self : t) (identity : Identity) : M unit :=
  fun w => rebuild_index_loop self (db w) w.

(** The methods of the base class [RecordService] that the service reaches
    through [super()], with the keyword arguments [**kwargs] they are
    handed. *)
Record RecordService (K : Type) : Type := {
  super_read_all : Identity -> list string -> nat -> K ->
                   M (list (gmap string JsonVal));
  super_read_many : Identity -> list PyId -> option (list string) -> K ->
                    M (list (gmap string JsonVal));
  super_scan : Identity -> option (gmap string JsonVal) -> option string -> K ->
               M (list (gmap string JsonVal));
  super_search : Identity -> option (gmap string JsonVal) -> option string -> K ->
                 M (list (gmap string JsonVal));
  super_reindex : Identity -> option (gmap string JsonVal) -> option string -> K ->
                  M bool;
}.
Arguments super_read_all {K}.
Arguments super_read_many {K}.
Arguments super_scan {K}.
Arguments super_search {K}.
Arguments super_reindex {K}.

(** [RequestsService.read_all]; [max_records] defaults to 150. *)
Definition read_all {K} (base : RecordService K) (self : t)
    (identity : Identity) (fields : list string) (max_records : option nat)
    (kwargs : K) : M (list (gmap string JsonVal)) :=
  super_read_all base identity fields
    (match max_records with Some n => n | None => 150%nat end) kwargs.

(** [RequestsService.read_many] *)
Definition read_many {K} (base : RecordService K) (self : t)
    (identity : Identity) (ids : list PyId) (fields : option (list string))
    (kwargs : K) : M (list (gmap string JsonVal)) :=
  super_read_many base identity ids fields kwargs.

(** [RequestsService.scan]: [super().scan(identity, params=None,
    es_preference=None, **kwargs)]. *)
Definition scan {K} (base : RecordService K) (self : t) (identity : Identity)
    (params : option (gmap string JsonVal)) (es_preference : option string)
    (kwargs : K) : M (list (gmap string JsonVal)) :=
  super_scan base identity None None kwargs.

(** [RequestsService.search]: [super().search(identity, es_preference=None,
    **kwargs)]; [params] is not handed on, so the base method runs with its
    default [params=None]. *)
Definition search {K} (base : RecordService K) (self : t) (identity : Identity)
    (params : option (gmap string JsonVal)) (es_preference : option string)
    (kwargs : K) : M (list (gmap string JsonVal)) :=
  super_search base identity None None kwargs.

(** [RequestsService.reindex]: [super().reindex(identity, params=None,
    es_preference=None, **kwargs)]. *)
Definition reindex {K} (base : RecordService K) (self : t) (identity : Identity)
    (params : option (gmap string JsonVal)) (es_preference : option string)
    (kwargs : K) : M bool :=
  super_reindex base identity None None kwargs.

End RequestsService.

(** ** services/user_moderation/service.py *)

Module UserModerationRequestService.
Import Api.

(** The fragment of the search DSL the service builds:
    [Q("term", field=value)] and
    [Q("bool", should=[...], minimum_should_match=n)]. *)
#[local] Unset Elimination Schemes.
Inductive Query : Type :=
| QTerm (field value : string)
| QBool (should : list Query) (minimum_should_match : nat).
#[local] Set Elimination Schemes.

(** Whether an indexed document satisfies a query. *)
Fixpoint matches (q : Query) (doc : gmap string JsonVal) : bool :=
  match q with
  | QTerm field value => bool_decide (doc !! field = Some (JStr value))
  | QBool should n =>
      (n <=? length (List.filter (fun q' => matches q' doc) should))%nat
  end.

(** A resolved entity, and the proxy [resolve_entity_proxy] returns for a
    reference; [resolve] is the proxy's method. *)
Record Entity : Type := { entity_ref : EntityRef }.
Record EntityProxy : Type := { resolve : M Entity }.

(** What a service returns for one request ([request_item.id] is read by
    [request_moderation]) and for a search. *)
Record RequestItem : Type := { item_id : PyId; item_record : Request }.
Abbreviation RequestList := (list (gmap string JsonVal)).

(** The requests service handed to [__init__], an object of which this
    service knows the methods it calls.  They are taken with the arguments
    the call sites of this file pass them: the methods of
    [services/requests/service.py] have other signatures ([create] takes
    three arguments, [execute_action] no [data]). *)
Record RequestsServiceAPI : Type := {
  (* create(identity, data, request_type, receiver, creator, topic=topic) *)
  create : Identity -> gmap string JsonVal -> RequestType -> EntityRef ->
           EntityRef -> Entity -> M RequestItem;
  (* read(identity=identity, id_=id_) *)
  read : Identity -> PyId -> M RequestItem;
  (* execute_action(identity=identity, id_=id_, action=action, data=data) *)
  execute_action : Identity -> PyId -> string -> option (gmap string JsonVal) ->
                   M RequestItem;
  (* search(identity, extra_filter=q, params=params, expand=expand,
            permission_action=permission_action) *)
  search : Identity -> option Query -> gmap string JsonVal -> bool ->
           option string -> M RequestList;
}.

(** The service object, with the process-wide objects its methods reach
    through module globals: the request type registry and the resolver
    registry. *)
Record t : Type := {
  requests_service : RequestsServiceAPI;
  permission_policy : string -> Identity -> bool;
  current_request_type_registry : Registry;
  resolve_entity_proxy : EntityRef -> result EntityProxy;
}.

(** [UserModeration.type_id], declared in
    [customizations/user_moderation/user_moderation.py]. *)
Definition UserModeration_type_id : string := "user-moderation".

(** [Service.require_permission] *)
Definition require_permission (self : t) (identity : Identity)
    (action_name : string) : M unit :=
  if permission_policy self action_name identity
  then ret tt
  else raise (PermissionDeniedError action_name).

(** The property [request_type_cls]: a registry lookup. *)
Definition request_type_cls (self : t) : result RequestType :=
  match current_request_type_registry self !! UserModeration_type_id with
  | Some T => Ok T
  | None => Err (UnknownTypeError (Some UserModeration_type_id))
  end.

(** [x or {}] on an optional dict: [None] and the empty dict are falsy. *)
Definition or_empty (x : option (gmap string JsonVal)) : gmap string JsonVal :=
  match x with
  | Some d => d
  | None => ∅
  end.

(** [UserModerationRequestService.read] ([read] is the method of the
    requests service). *)
Definition read_ (self : t) (identity : Identity) (request_id : PyId)
    : M RequestItem :=
  require_permission self identity "read";;
  read (requests_service self) system_identity request_id.

(** [UserModerationRequestService.moderate] *)
Definition moderate (self : t) (identity : Identity) (request_id : PyId)
    (action : string) (data : option (gmap string JsonVal)) : M RequestItem :=
  require_permission self identity "moderate";;
  execute_action (requests_service self) system_identity request_id action data.

(** [UserModerationRequestService.request_moderation] *)
Definition request_moderation (self : t) (identity : Identity)
    (creator : string) (topic : string) (data : option (gmap string JsonVal))
    : M RequestItem :=
  require_permission self identity "request_moderation";;
  if negb (bool_decide (creator = system_user_id))
  then raise InvalidCreator
  else
    let data := or_empty data in
    let* proxy := lift (resolve_entity_proxy self
                          {| ref_kind := "user"; ref_id := topic |}) in
    let* topic := resolve proxy in
    let receiver := {| ref_kind := "user_moderation"; ref_id := system_user_id |} in
    let creator := {| ref_kind := "user_moderation"; ref_id := creator |} in
    let* cls := lift (request_type_cls self) in
    let* request_item :=
      create (requests_service self) identity data cls receiver creator topic in
    execute_action (requests_service self) identity (item_id request_item)
      "submit" (Some data).

(** The query [user_mod_only_q] of [search_moderation_requests]. *)
Definition user_mod_only_q (cls : RequestType) : Query :=
  QBool [QTerm "type" (type_id cls)] 1.

(** [UserModerationRequestService.search_moderation_requests] *)
Definition search_moderation_requests (self : t) (identity : Identity)
    (params : option (gmap string JsonVal)) (expand : bool) : M RequestList :=
  require_permission self identity "search_requests";;
  let params := or_empty params in
  let* cls := lift (request_type_cls self) in
  let extra_filter := user_mod_only_q cls in
  search (requests_service self) system_identity (Some extra_filter)
    params expand None.

End UserModerationRequestService.

(** ** A request type with status transitions

    Modelled from the spec: the action classes and the user-moderation
    request type of [customizations/], which are not among the embedded
    files.  An action of the engine's state machine
    ([created --submit--> submitted], ...) is allowed from a set of source
    statuses for the identities it authorizes and leads to one target
    status; [approve] and [block] are reserved to the privileged actor.
    [execute] writes the target status, and fails with
    [ActionNotExecutableError] when [can_execute] is false. *)

Module Transitions.

(** [request.status] *)
Definition status (r : Request) : option JsonVal := data r !! "status".

Definition with_data (m : RequestMetadata) (doc : gmap string JsonVal)
    : RequestMetadata :=
  {| model_id := model_id m;
     external_id := external_id m;
     is_deleted := is_deleted m;
     model_data := doc;
     model_expires_at := model_expires_at m |}.

(** [request.status = to], committed and reindexed. *)
Definition set_status (to : string) (request : Request) : M Request :=
  fun w =>
    let doc := <["status" := JStr to]> (data request) in
    let key := model_id (model request) in
    (Ok {| data := doc; model := with_data (model request) doc |},
     {| db := map (fun m => if bool_decide (model_id m = key)
                            then with_data m doc else m) (db w);
        search_index :=
          match search_index w !! key with
          | Some _ => <[key := doc]> (search_index w)
          | None => search_index w
          end |}).

Definition status_in (sources : list string) (r : Request) : bool :=
  match status r with
  | Some (JStr s) => bool_decide (s ∈ sources)
  | _ => false
  end.

(** An action allowed from [sources] for the identities [who] accepts,
    leading to [target]. *)
Definition transition (who : Identity -> bool) (sources : list string)
    (target : string) (request : Request) : Action :=
  {| can_execute := fun identity => status_in sources request && who identity;
     execute := fun identity =>
       if status_in sources request && who identity
       then set_status target request
       else raise ActionNotExecutableError |}.

Definition anyone (_ : Identity) : bool := true.

Definition is_system (identity : Identity) : bool :=
  bool_decide ("system_process" ∈ provides identity).

(** The user-moderation request type with its actions. *)
Definition UserModeration : RequestType :=
  {| type_id := UserModerationRequestService.UserModeration_type_id;
     available_actions :=
       list_to_map
         [("submit", transition anyone ["created"] "submitted");
          ("approve", transition is_system ["submitted"] "accepted");
          ("block", transition is_system ["submitted"] "declined")] |}.

Definition registry : Registry :=
  {[ UserModerationRequestService.UserModeration_type_id := UserModeration ]}.

End Transitions.

(** ** The generic request service behind the user-moderation service *)

Module GenericService.
Import Api.
Import UserModerationRequestService.

Definition result_item (r : Request) : RequestItem :=
  {| item_id := IdUUID (model_id (model r)); item_record := r |}.

(** Modelled from the spec: the generic creation path, with the signature
    [create(identity, data, request_type, receiver, creator, topic)] that
    [request_moderation] calls (the [create] of
    [services/requests/service.py] takes three arguments).  It checks the
    [create] permission, stores a new request of the given type in the
    initial status [created] with the given creator, receiver and topic
    references, and indexes it. *)
Definition create (rs : RequestsService.t) (identity : Identity)
    (doc : gmap string JsonVal) (request_type : RequestType)
    (receiver creator : EntityRef) (topic : Entity) : M RequestItem :=
  RequestsService.require_permission rs identity "create" None;;
  fun w =>
    let key := "req-" +:+ pretty (length (db w)) in
    let doc :=
      <["type" := JStr (type_id request_type)]>
      (<["request_type" := JStr (type_id request_type)]>
      (<["request_type_id" := JStr (type_id request_type)]>
      (<["status" := JStr "created"]>
      (<["receiver" := JRef receiver]>
      (<["created_by" := JRef creator]>
      (<["topic" := JRef (entity_ref topic)]> doc)))))) in
    let row := {| model_id := key;
                  external_id := Some (pretty (S (length (db w))));
                  is_deleted := false;
                  model_data := doc;
                  model_expires_at := None |} in
    (Ok (result_item {| data := doc; model := row |}),
     {| db := db w ++ [row];
        search_index := if RequestsService.indexer rs
                        then <[key := doc]> (search_index w)
                        else search_index w |}).

(** Modelled from the spec: the service-layer
    [execute_action(identity, id_, action, data)], with the signature that
    [moderate] and [request_moderation] call (the [execute_action] of
    [services/requests/service.py] takes no [data] and returns what the
    action returns).  As the service layer does, it loads the request,
    rejects the call when [can_execute_action] is false and executes the
    action otherwise, which is what [RequestsService.execute_action] does;
    [data] is not used, and the request is returned as an item. *)
Definition execute_action (rs : RequestsService.t) (identity : Identity)
    (id_ : PyId) (action : string) (_ : option (gmap string JsonVal))
    : M RequestItem :=
  let* r := RequestsService.execute_action rs action id_ identity in
  ret (result_item r).

(** [read(identity=identity, id_=id_)]: the method of
    [services/requests/service.py]. *)
Definition read (rs : RequestsService.t) (identity : Identity) (id_ : PyId)
    : M RequestItem :=
  let* request := RequestsService.read rs id_ identity in
  ret (result_item request).

(** Modelled from the spec: the search collaborator's
    [search(query) -> results].  With a [permission_action] only the
    documents the identity may act on are returned; an [extra_filter]
    restricts the hits further. *)
Definition search (rs : RequestsService.t) (identity : Identity)
    (extra_filter : option Query) (params : gmap string JsonVal)
    (expand : bool) (permission_action : option string) : M RequestList :=
  RequestsService.require_permission rs identity "search" None;;
  reads (fun w =>
    let visible (m : RequestMetadata) :=
      match permission_action with
      | Some a => RequestsService.permission_policy rs a identity
                    (Some {| data := model_data m; model := m |})
      | None => true
      end in
    let hit (m : RequestMetadata) :=
      match search_index w !! model_id m with
      | Some doc =>
          let wanted := match extra_filter with
                        | Some q => matches q doc
                        | None => true
                        end in
          if visible m && wanted then Some doc else None
      | None => None
      end in
    Ok (omap hit (db w))).

(** The key, the document and the row of the request that [create] stores
    in the world [w]. *)
Definition fresh_key (w : World) : UUID := "req-" +:+ pretty (length (db w)).

Definition created_doc (doc : gmap string JsonVal) (request_type : RequestType)
    (receiver creator : EntityRef) (topic : Entity) : gmap string JsonVal :=
  <["type" := JStr (type_id request_type)]>
  (<["request_type" := JStr (type_id request_type)]>
  (<["request_type_id" := JStr (type_id request_type)]>
  (<["status" := JStr "created"]>
  (<["receiver" := JRef receiver]>
  (<["created_by" := JRef creator]>
  (<["topic" := JRef (entity_ref topic)]> doc)))))).

Definition created_row (w : World) (doc : gmap string JsonVal)
    : RequestMetadata :=
  {| model_id := fresh_key w;
     external_id := Some (pretty (S (length (db w))));
     is_deleted := false;
     model_data := doc;
     model_expires_at := None |}.

Definition api (rs : RequestsService.t) : RequestsServiceAPI :=
  {| UserModerationRequestService.create := create rs;
     UserModerationRequestService.read := read rs;
     UserModerationRequestService.execute_action := execute_action rs;
     UserModerationRequestService.search := search rs |}.

End GenericService.

(** ** Concrete objects: identities, services and worlds *)

Module Scenario.
Import Api.

Definition moderator : Identity :=
  {| identity_id := Some "1"; provides := ["authenticated_user"; "moderator"] |}.

Definition second_moderator : Identity :=
  {| identity_id := Some "2"; provides := ["authenticated_user"; "moderator"] |}.

Definition visitor : Identity :=
  {| identity_id := Some "7"; provides := ["authenticated_user"] |}.

(** Every action of the user-moderation service is reserved to moderators
    and to the system process. *)
Definition moderation_policy (action_name : string) (identity : Identity) : bool :=
  bool_decide ("moderator" ∈ provides identity)
  || bool_decide ("system_process" ∈ provides identity).

(** A request type contributed by a plugin.  Its [publish] action is
    allowed on a created request only, and its [execute] writes the status
    without looking at it. *)
Definition publish (request : Request) : Action :=
  {| can_execute := fun _ => Transitions.status_in ["created"] request;
     execute := fun _ => Transitions.set_status "published" request |}.

Definition Publication : RequestType :=
  {| type_id := "publication";
     available_actions := {[ "publish" := publish ]} |}.

Definition registry : Registry :=
  <["publication" := Publication]> Transitions.registry.

(** The requests service lets everyone through. *)
Definition rs : RequestsService.t :=
  {| RequestsService.permission_policy := fun _ _ _ => true;
     RequestsService.request_type_registry := registry;
     RequestsService.indexer := true;
     RequestsService.components := [] |}.

(** Only references of kind [user] resolve. *)
Definition resolver (r : EntityRef) : result UserModerationRequestService.EntityProxy :=
  if bool_decide (ref_kind r = "user")
  then Ok {| UserModerationRequestService.resolve :=
               ret {| UserModerationRequestService.entity_ref := r |} |}
  else Err UnresolvableReferenceError.

Definition svc : UserModerationRequestService.t :=
  {| UserModerationRequestService.requests_service := GenericService.api rs;
     UserModerationRequestService.permission_policy := moderation_policy;
     UserModerationRequestService.current_request_type_registry := registry;
     UserModerationRequestService.resolve_entity_proxy := resolver |}.

Definition empty_world : World := {| db := []; search_index := ∅ |}.

Definition doc (type status : string) : gmap string JsonVal :=
  list_to_map
    [("request_type_id", JStr type);
     ("request_type", JStr type);
     ("type", JStr type);
     ("status", JStr status)].

Definition row (key : UUID) (number : option string) (deleted : bool)
    (type status : string) : RequestMetadata :=
  {| model_id := key;
     external_id := number;
     is_deleted := deleted;
     model_data := doc type status;
     model_expires_at := None |}.

Definition request_of (m : RequestMetadata) : Request :=
  {| data := model_data m; model := m |}.

(** A table with an accepted moderation request, a deleted one, one without
    external id, and a publication that was declined. *)
Definition accepted_row : RequestMetadata :=
  row "req-0" (Some "1") false "user-moderation" "accepted".
Definition deleted_row : RequestMetadata :=
  row "req-1" (Some "2") true "user-moderation" "submitted".
Definition unnumbered_row : RequestMetadata :=
  row "req-2" None false "user-moderation" "created".
Definition declined_row : RequestMetadata :=
  row "req-3" (Some "4") false "publication" "declined".

Definition table : list RequestMetadata :=
  [accepted_row; deleted_row; unnumbered_row; declined_row].

Definition world : World :=
  {| db := table;
     search_index := {[ "req-0" := doc "user-moderation" "accepted";
                        "req-2" := doc "user-moderation" "created";
                        "req-3" := doc "publication" "declined" ]} |}.

(** A request whose expiry is given in a zone one hour ahead of UTC, and
    the same instant given as a naive UTC reading. *)
Definition one_hour : Z := 3600000000.

Definition plus_one : tzinfo := {| utcoffset := fun _ => Some one_hour |}.

Definition expiring_row (d : datetime) : RequestMetadata :=
  {| model_id := "req-9";
     external_id := Some "9";
     is_deleted := false;
     model_data := doc "user-moderation" "submitted";
     model_expires_at := Some d |}.

Definition noon_plus_one : datetime :=
  {| wall := 12 * one_hour; dt_tzinfo := Some plus_one |}.

Definition eleven_naive : datetime :=
  {| wall := 11 * one_hour; dt_tzinfo := None |}.

(** A requests service without indexer, and one that reserves [read] and
    [delete] to moderators. *)
Definition rs_without_indexer : RequestsService.t :=
  {| RequestsService.permission_policy := fun _ _ _ => true;
     RequestsService.request_type_registry := registry;
     RequestsService.indexer := false;
     RequestsService.components := [] |}.

Definition rs_moderated : RequestsService.t :=
  {| RequestsService.permission_policy :=
       fun _ identity _ => bool_decide ("moderator" ∈ provides identity);
     RequestsService.request_type_registry := registry;
     RequestsService.indexer := true;
     RequestsService.components := [] |}.

(** The moderation request of user 42, as stored in a given status. *)
Definition user_42 : EntityRef := {| ref_kind := "user"; ref_id := "42" |}.

Definition moderation_actor : EntityRef :=
  {| ref_kind := "user_moderation"; ref_id := system_user_id |}.

Definition moderation_doc (status : string) : gmap string JsonVal :=
  list_to_map
    [("type", JStr "user-moderation");
     ("request_type", JStr "user-moderation");
     ("request_type_id", JStr "user-moderation");
     ("status", JStr status);
     ("receiver", JRef moderation_actor);
     ("created_by", JRef moderation_actor);
     ("topic", JRef user_42)].

Definition moderation_row (status : string) : RequestMetadata :=
  {| model_id := "req-0";
     external_id := Some "1";
     is_deleted := false;
     model_data := moderation_doc status;
     model_expires_at := None |}.

Definition moderation_world (status : string) : World :=
  {| db := [moderation_row status];
     search_index := {[ "req-0" := moderation_doc status ]} |}.

End Scenario.

(** * Properties *)

(** ** Expiry *)

Lemma datetime_lt_same_awareness (a b : datetime) :
  aware a = aware b ->
  datetime_lt a b = Ok (utc_instant a <? utc_instant b).
Proof.
  unfold aware, datetime_lt, utc_instant.
  destruct (dt_utcoffset a) as [oa|], (dt_utcoffset b) as [ob|]; intros H;
    try reflexivity.
  - rewrite bool_decide_eq_true_2 in H by eauto.
    rewrite bool_decide_eq_false_2 in H by (intros [? ?]; discriminate).
    discriminate.
  - rewrite bool_decide_eq_false_2 in H by (intros [? ?]; discriminate).
    rewrite bool_decide_eq_true_2 in H by eauto.
    discriminate.
Qed.

Lemma comparison_now_aware (utcnow : Z) (d : datetime) :
  aware (Api.comparison_now utcnow d) = aware d.
Proof.
  unfold Api.comparison_now, aware, dt_utcoffset.
  destruct (dt_tzinfo d) as [z|]; simpl; [|reflexivity].
  destruct (utcoffset z (wall d)) as [o|] eqn:Ho; simpl; rewrite ?Ho;
    reflexivity.
Qed.

Lemma comparison_now_instant (utcnow : Z) (d : datetime) :
  utc_instant (Api.comparison_now utcnow d) = utcnow.
Proof.
  unfold Api.comparison_now, utc_instant, dt_utcoffset.
  destruct (dt_tzinfo d) as [z|]; simpl; [|reflexivity].
  destruct (utcoffset z (wall d)) as [o|]; simpl; [lia|reflexivity].
Qed.

(** C4. [is_expired] is false without [expires_at]; with [expires_at = d] it
    is true exactly when the instant of [d] is strictly before the current
    time.  The [now] operand of the comparison is given the awareness of [d]
    (aware with aware, naive with naive), so the comparison never raises the
    mixed-operands [TypeError]. *)
Theorem is_expired_spec (utcnow : Z) (self : Request) :
  Api.is_expired utcnow self =
    Ok (match Api.expires_at self with
        | None => false
        | Some d => bool_decide (utc_instant d < utcnow)
        end)
  /\ (forall d : datetime, aware (Api.comparison_now utcnow d) = aware d)
  /\ (forall d : datetime,
        datetime_lt d (Api.comparison_now utcnow d) <> Err PyTypeError).
Proof.
  assert (Hcmp : forall d, datetime_lt d (Api.comparison_now utcnow d)
                           = Ok (bool_decide (utc_instant d < utcnow))).
  { intros d.
    rewrite datetime_lt_same_awareness by (symmetry; apply comparison_now_aware).
    rewrite comparison_now_instant. f_equal.
    destruct (Z.ltb_spec (utc_instant d) utcnow).
    - rewrite bool_decide_eq_true_2; auto.
    - rewrite bool_decide_eq_false_2; auto. lia. }
  split; [|split].
  - unfold Api.is_expired. destruct (Api.expires_at self) as [d|]; auto.
  - intros d. apply comparison_now_aware.
  - intros d. rewrite Hcmp. discriminate.
Qed.

(** ** Action lookup *)

Lemma get_action_registered (reg : Registry) (self : Request)
    (T : RequestType) (action_name : string) :
  Api.request_type reg self = Ok T ->
  Api.get_action reg self action_name =
    match available_actions T !! action_name with
    | Some ctor => Ok (ctor self)
    | None => Err (NoSuchActionError action_name)
    end.
Proof.
  intros HT. unfold Api.get_action, Api.getitem. rewrite HT. simpl.
  destruct (available_actions T !! action_name); reflexivity.
Qed.

(** C5. On a request of a registered type [T], [get_action A] raises
    [NoSuchActionError] when [A] is not a key of [T]'s [available_actions],
    and otherwise returns the action the registered constructor builds from
    this request. *)
Theorem get_action_spec (reg : Registry) (self : Request) (T : RequestType)
    (A : string) :
  Api.request_type reg self = Ok T ->
  (available_actions T !! A = None ->
     Api.get_action reg self A = Err (NoSuchActionError A))
  /\ (forall ctor : Request -> Action,
        available_actions T !! A = Some ctor ->
        Api.get_action reg self A = Ok (ctor self)).
Proof.
  intros HT. rewrite (get_action_registered reg self T A HT).
  split.
  - intros ->. reflexivity.
  - intros ctor ->. reflexivity.
Qed.

Lemma get_action_spec_witness :
  Api.get_action Scenario.registry (Scenario.request_of Scenario.accepted_row)
    "publish" = Err (NoSuchActionError "publish")
  /\ Api.get_action Scenario.registry (Scenario.request_of Scenario.accepted_row)
       "submit"
     = Ok (Transitions.transition Transitions.anyone ["created"] "submitted"
             (Scenario.request_of Scenario.accepted_row)).
Proof.
  destruct (get_action_spec Scenario.registry
              (Scenario.request_of Scenario.accepted_row)
              Transitions.UserModeration "publish") as [Hnone _];
    [reflexivity|].
  destruct (get_action_spec Scenario.registry
              (Scenario.request_of Scenario.accepted_row)
              Transitions.UserModeration "submit") as [_ Hsome];
    [reflexivity|].
  split.
  - apply Hnone. reflexivity.
  - apply Hsome. reflexivity.
Defined.

(** C6. [can_execute_action name identity] is the value of
    [get_action(name).can_execute(identity)]; when [name] is not an available
    action the [NoSuchActionError] of [get_action] comes out, not [False]. *)
Theorem can_execute_action_spec (reg : Registry) (self : Request)
    (T : RequestType) (name : string) (identity : Identity) :
  Api.request_type reg self = Ok T ->
  Api.can_execute_action reg self name identity =
    match Api.get_action reg self name with
    | Ok a => Ok (can_execute a identity)
    | Err e => Err e
    end
  /\ (forall ctor : Request -> Action,
        available_actions T !! name = Some ctor ->
        Api.can_execute_action reg self name identity
        = Ok (can_execute (ctor self) identity))
  /\ (available_actions T !! name = None ->
        Api.can_execute_action reg self name identity
        = Err (NoSuchActionError name)).
Proof.
  intros HT. unfold Api.can_execute_action.
  rewrite (get_action_registered reg self T name HT).
  split; [|split].
  - destruct (available_actions T !! name); reflexivity.
  - intros ctor ->. reflexivity.
  - intros ->. reflexivity.
Qed.

Lemma can_execute_action_spec_witness :
  Api.can_execute_action Scenario.registry
    (Scenario.request_of Scenario.accepted_row) "submit" Scenario.visitor
  = Ok false
  /\ Api.can_execute_action Scenario.registry
       (Scenario.request_of Scenario.accepted_row) "publish" Scenario.visitor
     = Err (NoSuchActionError "publish").
Proof.
  destruct (can_execute_action_spec Scenario.registry
              (Scenario.request_of Scenario.accepted_row)
              Transitions.UserModeration "submit" Scenario.visitor)
    as (_ & Hsome & _); [reflexivity|].
  destruct (can_execute_action_spec Scenario.registry
              (Scenario.request_of Scenario.accepted_row)
              Transitions.UserModeration "publish" Scenario.visitor)
    as (_ & _ & Hnone); [reflexivity|].
  split.
  - rewrite (Hsome _ eq_refl). reflexivity.
  - apply Hnone. reflexivity.
Defined.

(** ** Lookup by external or internal id *)

Lemma filter_filter_andb {A} (p q : A -> bool) (l : list A) :
  List.filter q (List.filter p l) = List.filter (fun x => p x && q x) l.
Proof.
  induction l as [|x l IH]; simpl; [reflexivity|].
  destruct (p x); simpl; [destruct (q x)|]; rewrite IH; reflexivity.
Qed.

Lemma filter_ext_bool {A} (p q : A -> bool) (l : list A) :
  (forall x, p x = q x) -> List.filter p l = List.filter q l.
Proof.
  intros H. induction l as [|x l IH]; simpl; [reflexivity|].
  rewrite H, IH. reflexivity.
Qed.

(** Both queries select with one and the same deletion filter. *)
Lemma query_by_external_id_filter table id_ with_deleted :
  Api.query_by_external_id table id_ with_deleted =
  List.filter (fun m => Api.external_id_is (Api.str id_) m
                        && (with_deleted || negb (is_deleted m))) table.
Proof.
  unfold Api.query_by_external_id. destruct with_deleted; simpl.
  - apply filter_ext_bool. intros m. rewrite andb_true_r. reflexivity.
  - rewrite filter_filter_andb. reflexivity.
Qed.

Lemma query_by_id_filter table id_ with_deleted :
  Api.query_by_id table id_ with_deleted =
  List.filter (fun m => Api.id_is id_ m
                        && (with_deleted || negb (is_deleted m))) table.
Proof.
  unfold Api.query_by_id. destruct with_deleted; simpl.
  - apply filter_ext_bool. intros m. rewrite andb_true_r. reflexivity.
  - rewrite filter_filter_andb. reflexivity.
Qed.

Lemma one_length_1 (rows : list RequestMetadata) :
  (length rows =? 1)%nat = false ->
  Api.is_Multiple_or_NoResult
    (match Api.one rows with Ok _ => PyException | Err e => e end) = true
  /\ is_Ok (Api.one rows) = false.
Proof.
  destruct rows as [|m [|m' rows]]; simpl; intros H; try discriminate; auto.
Qed.

Lemma get_record_cases table id_ with_deleted :
  Api.get_record table id_ with_deleted =
    let? m := if (length (Api.query_by_external_id table id_ with_deleted) =? 1)%nat
              then Api.one (Api.query_by_external_id table id_ with_deleted)
              else Api.one (Api.query_by_id table id_ with_deleted) in
    Ok {| data := model_data m; model := m |}.
Proof.
  unfold Api.get_record, try_except.
  destruct (Api.query_by_external_id table id_ with_deleted) as [|m [|m' rows]];
    reflexivity.
Qed.

(** C10. [get_record] first selects the rows whose [external_id] is
    [str(id_)]; exactly when that selection is not a single row (none, or
    several) it selects by the primary key [id] instead.  Both selections
    apply the same deletion filter, and a row whose [external_id] is NULL is
    never in the first one. *)
Theorem get_record_lookup_order (table : list RequestMetadata) (id_ : Api.PyId)
    (with_deleted : bool) :
  let selected (p : RequestMetadata -> bool) :=
    List.filter (fun m => p m && (with_deleted || negb (is_deleted m))) table in
  let by_external_id := selected (Api.external_id_is (Api.str id_)) in
  let by_id := selected (Api.id_is id_) in
  Api.get_record table id_ with_deleted =
    match by_external_id with
    | [m] => Ok {| data := model_data m; model := m |}
    | _ =>
        match by_id with
        | [] => Err NoResultFound
        | [m] => Ok {| data := model_data m; model := m |}
        | _ :: _ :: _ => Err MultipleResultsFound
        end
    end
  /\ Forall (fun m => external_id m = Some (Api.str id_)) by_external_id.
Proof.
  intros selected by_external_id by_id. split.
  - rewrite get_record_cases.
    rewrite query_by_external_id_filter, query_by_id_filter.
    fold (selected (Api.external_id_is (Api.str id_))).
    fold (selected (Api.id_is id_)).
    fold by_external_id by_id.
    destruct by_external_id as [|m [|m' rows]]; simpl;
      try (destruct by_id as [|n [|n' rows']]; reflexivity).
  - apply List.Forall_forall. intros m Hin.
    apply List.filter_In in Hin as [_ Hsel].
    apply andb_true_iff in Hsel as [Hext _].
    unfold Api.external_id_is in Hext.
    destruct (external_id m) as [e|]; [|discriminate].
    apply bool_decide_eq_true in Hext. congruence.
Qed.

(** ** Logical deletion *)

Lemma one_In (rows : list RequestMetadata) (m : RequestMetadata) :
  Api.one rows = Ok m -> In m rows.
Proof.
  destruct rows as [|m0 [|m1 rows]]; simpl; intros H; inversion H; auto.
Qed.

Lemma get_record_not_deleted table id_ r :
  Api.get_record table id_ false = Ok r -> is_deleted (model r) = false.
Proof.
  rewrite get_record_cases.
  rewrite query_by_external_id_filter, query_by_id_filter.
  set (qe := List.filter _ table). set (qi := List.filter _ table).
  intros H.
  assert (Hin : exists m, (In m qe \/ In m qi)
                          /\ r = {| data := model_data m; model := m |}).
  { destruct (length qe =? 1)%nat.
    - destruct (Api.one qe) as [m|e] eqn:Hone; simpl in H; inversion H.
      exists m. split; [left; eapply one_In; eauto | reflexivity].
    - destruct (Api.one qi) as [m|e] eqn:Hone; simpl in H; inversion H.
      exists m. split; [right; eapply one_In; eauto | reflexivity]. }
  destruct Hin as (m & Hm & ->). simpl.
  destruct Hm as [Hm|Hm]; apply List.filter_In in Hm as [_ Hsel];
    apply andb_true_iff in Hsel as [_ Hsel]; simpl in Hsel;
    destruct (is_deleted m); [discriminate|reflexivity|discriminate|reflexivity].
Qed.

Lemma get_record_by_external_id table m e :
  List.filter (Api.external_id_is e) table = [m] ->
  Api.get_record table (Api.IdStr e) true
  = Ok {| data := model_data m; model := m |}.
Proof.
  intros H. rewrite get_record_cases.
  unfold Api.query_by_external_id. simpl. rewrite H. reflexivity.
Qed.

Lemma get_record_by_id table m :
  length (List.filter (Api.external_id_is (model_id m)) table) <> 1%nat ->
  List.filter (Api.id_is (Api.IdUUID (model_id m))) table = [m] ->
  Api.get_record table (Api.IdUUID (model_id m)) true
  = Ok {| data := model_data m; model := m |}.
Proof.
  intros Hext Hid. rewrite get_record_cases.
  unfold Api.query_by_external_id, Api.query_by_id. simpl.
  apply Nat.eqb_neq in Hext. rewrite Hext, Hid. reflexivity.
Qed.

Lemma flagged_keeps_rows key table :
  length (RequestsService.flagged key table) = length table
  /\ map model_id (RequestsService.flagged key table) = map model_id table
  /\ map external_id (RequestsService.flagged key table) = map external_id table
  /\ map model_data (RequestsService.flagged key table) = map model_data table.
Proof.
  unfold RequestsService.flagged. rewrite length_map, !List.map_map.
  repeat split; apply List.map_ext; intros m;
    destruct (bool_decide (model_id m = key)); reflexivity.
Qed.

Lemma flagged_is_deleted key table m :
  In m (RequestsService.flagged key table) -> model_id m = key -> is_deleted m = true.
Proof.
  unfold RequestsService.flagged. intros Hin Hkey.
  apply List.in_map_iff in Hin as (m0 & <- & _).
  destruct (bool_decide (model_id m0 = key)) eqn:Hd; [reflexivity|].
  apply bool_decide_eq_false in Hd. contradiction.
Qed.

Lemma delete_run (self : RequestsService.t) id_ identity w request w1 :
  RequestsService._get_request self id_ w = (Ok request, w) ->
  RequestsService.permission_policy self "delete" identity (Some request) = true ->
  RequestsService.run_delete_components
    (RequestsService.components self) identity request w = (Ok tt, w1) ->
  RequestsService.delete self id_ identity w =
    (Ok true,
     {| db := RequestsService.flagged (model_id (model request)) (db w1);
        search_index :=
          if RequestsService.indexer self
          then delete (model_id (model request)) (search_index w1)
          else search_index w1 |}).
Proof.
  intros Hget Hperm Hhooks.
  unfold RequestsService.delete, bind. rewrite Hget.
  unfold RequestsService.require_permission. rewrite Hperm. simpl.
  rewrite Hhooks. simpl.
  unfold RequestsService.db_session_commit, ret,
    RequestsService.indexer_delete.
  destruct (RequestsService.indexer self); simpl; [reflexivity|].
  destruct w1; reflexivity.
Qed.

(** C9. A request whose [is_deleted] flag is set is never the result of
    [get_record] with [with_deleted=False]; with [with_deleted=True] it is
    still returned, under its external id and under its internal id.  The
    service's [delete] keeps every row of the table: it sets the flag of the
    request's row and removes its document from the index. *)
Theorem logical_delete :
  (forall table id_ r,
      Api.get_record table id_ false = Ok r -> is_deleted (model r) = false)
  /\ (forall table m e,
        is_deleted m = true ->
        List.filter (Api.external_id_is e) table = [m] ->
        Api.get_record table (Api.IdStr e) true
        = Ok {| data := model_data m; model := m |})
  /\ (forall table m,
        is_deleted m = true ->
        length (List.filter (Api.external_id_is (model_id m)) table) <> 1%nat ->
        List.filter (Api.id_is (Api.IdUUID (model_id m))) table = [m] ->
        Api.get_record table (Api.IdUUID (model_id m)) true
        = Ok {| data := model_data m; model := m |})
  /\ (forall (self : RequestsService.t) id_ identity w request w1,
        RequestsService._get_request self id_ w = (Ok request, w) ->
        RequestsService.permission_policy self "delete" identity (Some request)
        = true ->
        RequestsService.run_delete_components
          (RequestsService.components self) identity request w = (Ok tt, w1) ->
        exists w',
          RequestsService.delete self id_ identity w = (Ok true, w')
          /\ length (db w') = length (db w1)
          /\ map model_id (db w') = map model_id (db w1)
          /\ map external_id (db w') = map external_id (db w1)
          /\ map model_data (db w') = map model_data (db w1)
          /\ (forall m, In m (db w') -> model_id m = model_id (model request) ->
                        is_deleted m = true)
          /\ (RequestsService.indexer self = true ->
              search_index w' !! model_id (model request) = None)).
Proof.
  split; [|split; [|split]].
  - apply get_record_not_deleted.
  - intros table m e _. apply get_record_by_external_id.
  - intros table m _. apply get_record_by_id.
  - intros self id_ identity w request w1 Hget Hperm Hhooks.
    eexists. split; [eapply delete_run; eauto|]. simpl.
    destruct (flagged_keeps_rows (model_id (model request)) (db w1))
      as (Hlen & Hids & Hext & Hdata).
    repeat split; auto.
    + intros m. apply flagged_is_deleted.
    + intros ->. apply lookup_delete_eq.
Qed.

Lemma logical_delete_witness :
  is_deleted (model (Scenario.request_of Scenario.accepted_row)) = false
  /\ Api.get_record Scenario.table (Api.IdStr "2") true
     = Ok (Scenario.request_of Scenario.deleted_row)
  /\ Api.get_record Scenario.table (Api.IdUUID "req-1") true
     = Ok (Scenario.request_of Scenario.deleted_row)
  /\ exists w',
       RequestsService.delete Scenario.rs (Api.IdStr "1") Scenario.visitor
         Scenario.world = (Ok true, w')
       /\ length (db w') = 4%nat
       /\ map model_id (db w') = ["req-0"; "req-1"; "req-2"; "req-3"]
       /\ search_index w' !! "req-0" = None.
Proof.
  destruct logical_delete as (Hdefault & Hexternal & Hinternal & Hdelete).
  split; [|split; [|split]].
  - apply (Hdefault Scenario.table (Api.IdStr "1")). reflexivity.
  - apply (Hexternal Scenario.table Scenario.deleted_row "2"); reflexivity.
  - apply (Hinternal Scenario.table Scenario.deleted_row);
      [reflexivity | vm_compute; lia | reflexivity].
  - destruct (Hdelete Scenario.rs (Api.IdStr "1") Scenario.visitor
                Scenario.world (Scenario.request_of Scenario.accepted_row)
                Scenario.world)
      as (w' & Hrun & Hlen & Hids & _ & _ & _ & Hindex);
      [reflexivity | reflexivity | reflexivity |].
    exists w'. repeat split; auto.
Defined.

(** ** Executing an action that cannot be executed *)

(** On a declined publication [publish] cannot be executed, yet
    [Request.execute_action] runs it and returns the request as published; on
    an accepted moderation request [submit] cannot be executed, and the
    service refuses with a bare [Exception].  Neither raises
    [ActionNotExecutableError]. *)
Lemma execute_action_not_ActionNotExecutableError :
  let declined := Scenario.request_of Scenario.declined_row in
  let accepted := Scenario.request_of Scenario.accepted_row in
  Api.can_execute_action Scenario.registry declined "publish" Scenario.visitor
  = Ok false
  /\ (exists r',
        fst (Api.execute_action Scenario.registry declined "publish"
               Scenario.visitor Scenario.world) = Ok r'
        /\ Transitions.status r' = Some (JStr "published"))
  /\ fst (Api.execute_action Scenario.registry declined "publish"
            Scenario.visitor Scenario.world) <> Err ActionNotExecutableError
  /\ Api.can_execute_action Scenario.registry accepted "submit" Scenario.visitor
     = Ok false
  /\ RequestsService.execute_action Scenario.rs "submit" (Api.IdStr "1")
       Scenario.visitor Scenario.world = (Err PyException, Scenario.world)
  /\ fst (RequestsService.execute_action Scenario.rs "submit" (Api.IdStr "1")
            Scenario.visitor Scenario.world) <> Err ActionNotExecutableError.
Proof.
  repeat split; try discriminate; try (vm_compute; reflexivity).
  eexists. split; vm_compute; reflexivity.
Qed.

(** C1 (amended). [Request.execute_action] makes no executability check of
    its own: for an available action it is the [execute] of the action built
    for the request, whatever [can_execute] says.  The service's
    [execute_action] checks [can_execute_action] first: when it is false the
    call fails and the world is unchanged, the action's [execute] not being
    run; when it is true the call is [Request.execute_action]. *)
Theorem execute_action_guard :
  (forall reg self T name ctor identity w,
      Api.request_type reg self = Ok T ->
      available_actions T !! name = Some ctor ->
      Api.execute_action reg self name identity w
      = execute (ctor self) identity w)
  /\ (forall rs id_ name identity w request,
        RequestsService._get_request rs id_ w = (Ok request, w) ->
        Api.can_execute_action (RequestsService.request_type_registry rs)
          request name identity = Ok false ->
        exists e,
          RequestsService.execute_action rs name id_ identity w = (Err e, w))
  /\ (forall rs id_ name identity w request,
        RequestsService._get_request rs id_ w = (Ok request, w) ->
        Api.can_execute_action (RequestsService.request_type_registry rs)
          request name identity = Ok true ->
        RequestsService.execute_action rs name id_ identity w
        = Api.execute_action (RequestsService.request_type_registry rs)
            request name identity w).
Proof.
  split; [|split].
  - intros reg self T name ctor identity w HT Hctor.
    unfold Api.execute_action, bind, lift.
    rewrite (get_action_registered reg self T name HT), Hctor. reflexivity.
  - intros rs id_ name identity w request Hget Hcan.
    exists PyException.
    unfold RequestsService.execute_action, bind, lift.
    rewrite Hget, Hcan. reflexivity.
  - intros rs id_ name identity w request Hget Hcan.
    unfold RequestsService.execute_action, bind, lift.
    rewrite Hget, Hcan. reflexivity.
Qed.

Lemma execute_action_guard_witness :
  Api.execute_action Scenario.registry
    (Scenario.request_of Scenario.declined_row) "publish" Scenario.visitor
    Scenario.world
  = Transitions.set_status "published"
      (Scenario.request_of Scenario.declined_row) Scenario.world
  /\ (exists e,
        RequestsService.execute_action Scenario.rs "submit" (Api.IdStr "1")
          Scenario.visitor Scenario.world = (Err e, Scenario.world))
  /\ RequestsService.execute_action Scenario.rs "submit" (Api.IdUUID "req-2")
       Scenario.visitor Scenario.world
     = Api.execute_action Scenario.registry
         (Scenario.request_of Scenario.unnumbered_row) "submit"
         Scenario.visitor Scenario.world.
Proof.
  destruct execute_action_guard as (Hapi & Hreject & Hrun).
  split; [|split].
  - apply (Hapi Scenario.registry
             (Scenario.request_of Scenario.declined_row)
             Scenario.Publication "publish" Scenario.publish);
      reflexivity.
  - apply (Hreject Scenario.rs (Api.IdStr "1") "submit" Scenario.visitor
             Scenario.world (Scenario.request_of Scenario.accepted_row));
      reflexivity.
  - apply (Hrun Scenario.rs (Api.IdUUID "req-2") "submit" Scenario.visitor
             Scenario.world (Scenario.request_of Scenario.unnumbered_row));
      reflexivity.
Defined.

(** ** The user-moderation service *)

Section UserModeration.
Import UserModerationRequestService.

Variable self : UserModerationRequestService.t.

Lemma require_permission_run (identity : Identity) (action_name : string)
    (w : World) :
  require_permission self identity action_name w =
    if permission_policy self action_name identity
    then (Ok tt, w)
    else (Err (PermissionDeniedError action_name), w).
Proof.
  unfold require_permission.
  destruct (permission_policy self action_name identity); reflexivity.
Qed.

(** The steps of [request_moderation] after its two checks. *)
Lemma request_moderation_steps (identity : Identity) (topic : string)
    (data : option (gmap string JsonVal)) (w : World) :
  permission_policy self "request_moderation" identity = true ->
  request_moderation self identity system_user_id topic data w =
    match resolve_entity_proxy self {| ref_kind := "user"; ref_id := topic |} with
    | Err e => (Err e, w)
    | Ok proxy =>
        match resolve proxy w with
        | (Err e, w1) => (Err e, w1)
        | (Ok user, w1) =>
            match request_type_cls self with
            | Err e => (Err e, w1)
            | Ok cls =>
                match create (requests_service self) identity (or_empty data) cls
                        {| ref_kind := "user_moderation"; ref_id := system_user_id |}
                        {| ref_kind := "user_moderation"; ref_id := system_user_id |}
                        user w1 with
                | (Err e, w2) => (Err e, w2)
                | (Ok item, w2) =>
                    execute_action (requests_service self) identity
                      (item_id item) "submit" (Some (or_empty data)) w2
                end
            end
        end
    end.
Proof.
  intros Hperm. unfold request_moderation, bind.
  rewrite require_permission_run, Hperm. simpl. unfold lift.
  destruct (resolve_entity_proxy self _) as [proxy|e]; [|reflexivity].
  destruct (resolve proxy w) as [[user|e] w1]; [|reflexivity].
  destruct (request_type_cls self) as [cls|e]; [|reflexivity].
  reflexivity.
Qed.

(** C2 (amended). With a creator other than the system actor,
    [request_moderation] fails and leaves the world as it was, whatever the
    requests service is: with [InvalidCreator] when the caller holds the
    [request_moderation] permission, with the permission error otherwise. *)
Theorem request_moderation_invalid_creator (identity : Identity)
    (creator topic : string) (data : option (gmap string JsonVal)) (w : World) :
  creator <> system_user_id ->
  request_moderation self identity creator topic data w =
    (Err (if permission_policy self "request_moderation" identity
          then InvalidCreator
          else PermissionDeniedError "request_moderation"),
     w).
Proof.
  intros Hcreator. unfold request_moderation, bind.
  rewrite require_permission_run.
  destruct (permission_policy self "request_moderation" identity);
    [|reflexivity].
  rewrite bool_decide_eq_false_2 by assumption. reflexivity.
Qed.

(** The workflow over any requests service.  For a caller holding the
    [request_moderation] permission and the system actor as creator: once the
    resolver has resolved [{"user": topic}], the user-moderation type has
    been looked up and the requests service has created the request (of that
    type, with receiver and creator [{"user_moderation": system}] and the
    resolved topic), the outcome of [request_moderation] is the outcome of
    executing [submit] on the created request's id under the caller's
    identity. *)
Lemma request_moderation_workflow (identity : Identity) (topic : string)
    (data : option (gmap string JsonVal)) (w : World) :
  permission_policy self "request_moderation" identity = true ->
  (forall proxy user cls item w1 w2,
      resolve_entity_proxy self {| ref_kind := "user"; ref_id := topic |}
      = Ok proxy ->
      resolve proxy w = (Ok user, w1) ->
      request_type_cls self = Ok cls ->
      create (requests_service self) identity (or_empty data) cls
        {| ref_kind := "user_moderation"; ref_id := system_user_id |}
        {| ref_kind := "user_moderation"; ref_id := system_user_id |}
        user w1 = (Ok item, w2) ->
      request_moderation self identity system_user_id topic data w
      = execute_action (requests_service self) identity (item_id item)
          "submit" (Some (or_empty data)) w2)
  /\ (forall res w',
        request_moderation self identity system_user_id topic data w
        = (Ok res, w') ->
        exists proxy user cls item w1 w2,
          resolve_entity_proxy self {| ref_kind := "user"; ref_id := topic |}
          = Ok proxy
          /\ resolve proxy w = (Ok user, w1)
          /\ request_type_cls self = Ok cls
          /\ current_request_type_registry self !! UserModeration_type_id
             = Some cls
          /\ create (requests_service self) identity (or_empty data) cls
               {| ref_kind := "user_moderation"; ref_id := system_user_id |}
               {| ref_kind := "user_moderation"; ref_id := system_user_id |}
               user w1 = (Ok item, w2)
          /\ execute_action (requests_service self) identity (item_id item)
               "submit" (Some (or_empty data)) w2 = (Ok res, w')).
Proof.
  intros Hperm. split.
  - intros proxy user cls item w1 w2 Hproxy Huser Hcls Hcreate.
    rewrite request_moderation_steps by assumption.
    rewrite Hproxy, Huser, Hcls, Hcreate. reflexivity.
  - intros res w'. rewrite request_moderation_steps by assumption.
    destruct (resolve_entity_proxy self _) as [proxy|e]; [|discriminate].
    destruct (resolve proxy w) as [[user|e] w1] eqn:Huser; [|discriminate].
    destruct (request_type_cls self) as [cls|e] eqn:Hcls; [|discriminate].
    destruct (create _ _ _ _ _ _ _ _) as [[item|e] w2] eqn:Hcreate;
      [|discriminate].
    intros Hsubmit. exists proxy, user, cls, item, w1, w2.
    repeat split; auto.
    unfold request_type_cls in Hcls.
    destruct (current_request_type_registry self !! UserModeration_type_id);
      congruence.
Qed.

(** C7. [moderate] first requires the [moderate] permission of the caller
    (no other permission is consulted) and then is the requests service's
    [execute_action] under [system_identity]: the caller's identity is not
    the acting one, so two permitted callers get the same outcome. *)
Theorem moderate_spec (identity : Identity) (request_id : Api.PyId)
    (action : string) (data : option (gmap string JsonVal)) (w : World) :
  moderate self identity request_id action data w =
    (if permission_policy self "moderate" identity
     then execute_action (requests_service self) system_identity
            request_id action data w
     else (Err (PermissionDeniedError "moderate"), w))
  /\ (forall other : Identity,
        permission_policy self "moderate" identity = true ->
        permission_policy self "moderate" other = true ->
        moderate self identity request_id action data w
        = moderate self other request_id action data w).
Proof.
  assert (Hrun : forall i,
             moderate self i request_id action data w =
             if permission_policy self "moderate" i
             then execute_action (requests_service self) system_identity
                    request_id action data w
             else (Err (PermissionDeniedError "moderate"), w)).
  { intros i. unfold moderate, bind. rewrite require_permission_run.
    destruct (permission_policy self "moderate" i); reflexivity. }
  split; [apply Hrun|].
  intros other H1 H2. rewrite !Hrun, H1, H2. reflexivity.
Qed.

Lemma matches_user_mod_only_q (cls : RequestType) (doc : gmap string JsonVal) :
  matches (user_mod_only_q cls) doc
  = bool_decide (doc !! "type" = Some (JStr (type_id cls))).
Proof.
  unfold user_mod_only_q. simpl.
  destruct (bool_decide (doc !! "type" = Some (JStr (type_id cls))));
    reflexivity.
Qed.

(** C8. A call of [search_moderation_requests] that passes the
    [search_requests] permission check is the requests service's [search]
    under [system_identity], with no [permission_action] and with the
    filter [user_mod_only_q] as [extra_filter]; a document satisfies that
    filter exactly when its [type] is the id of the user-moderation type.
    Hence two callers that both pass the check get the same outcome. *)
Theorem search_moderation_requests_spec (identity : Identity)
    (params : option (gmap string JsonVal)) (expand : bool) (w : World) :
  permission_policy self "search_requests" identity = true ->
  (forall cls,
      request_type_cls self = Ok cls ->
      search_moderation_requests self identity params expand w
      = search (requests_service self) system_identity
          (Some (user_mod_only_q cls)) (or_empty params) expand None w)
  /\ (forall cls doc,
        matches (user_mod_only_q cls) doc = true
        <-> doc !! "type" = Some (JStr (type_id cls)))
  /\ (forall other : Identity,
        permission_policy self "search_requests" other = true ->
        search_moderation_requests self identity params expand w
        = search_moderation_requests self other params expand w).
Proof.
  intros Hperm.
  assert (Hrun : forall i,
             permission_policy self "search_requests" i = true ->
             search_moderation_requests self i params expand w =
             match request_type_cls self with
             | Ok cls => search (requests_service self) system_identity
                           (Some (user_mod_only_q cls)) (or_empty params)
                           expand None w
             | Err e => (Err e, w)
             end).
  { intros i Hi. unfold search_moderation_requests, bind, lift.
    rewrite require_permission_run, Hi.
    destruct (request_type_cls self); reflexivity. }
  split; [|split].
  - intros cls Hcls. rewrite Hrun, Hcls by assumption. reflexivity.
  - intros cls doc. rewrite matches_user_mod_only_q.
    apply bool_decide_eq_true.
  - intros other Hother. rewrite !Hrun by assumption. reflexivity.
Qed.

End UserModeration.

(** With a creator that is not the system actor and a caller without the
    [request_moderation] permission, the error is the permission error. *)
Lemma request_moderation_visitor_denied :
  UserModerationRequestService.request_moderation Scenario.svc
    Scenario.visitor "user-7" "42" None Scenario.empty_world
  = (Err (PermissionDeniedError "request_moderation"), Scenario.empty_world)
  /\ fst (UserModerationRequestService.request_moderation Scenario.svc
            Scenario.visitor "user-7" "42" None Scenario.empty_world)
     <> Err InvalidCreator.
Proof. split; [reflexivity|discriminate]. Qed.

Lemma request_moderation_invalid_creator_witness :
  UserModerationRequestService.request_moderation Scenario.svc
    Scenario.moderator "user-7" "42" None Scenario.empty_world
  = (Err InvalidCreator, Scenario.empty_world).
Proof.
  apply (request_moderation_invalid_creator Scenario.svc Scenario.moderator
           "user-7" "42" None Scenario.empty_world).
  discriminate.
Defined.

(** With the system actor as creator and a caller without the
    [request_moderation] permission nothing is resolved, created or
    submitted and no request is returned. *)
Lemma request_moderation_system_creator_denied :
  UserModerationRequestService.request_moderation Scenario.svc
    Scenario.visitor system_user_id "42" None Scenario.empty_world
  = (Err (PermissionDeniedError "request_moderation"), Scenario.empty_world).
Proof. reflexivity. Qed.

(** The scenario of the moderation workflow: the system asks for the
    moderation of user 42; the request is created and submitted. *)
Lemma request_moderation_workflow_witness :
  UserModerationRequestService.request_moderation Scenario.svc
    system_identity system_user_id "42" None Scenario.empty_world
  = (Ok (GenericService.result_item
           (Scenario.request_of (Scenario.moderation_row "submitted"))),
     Scenario.moderation_world "submitted")
  /\ Transitions.status
       (Scenario.request_of (Scenario.moderation_row "submitted"))
     = Some (JStr "submitted").
Proof.
  destruct (request_moderation_workflow Scenario.svc system_identity "42" None
              Scenario.empty_world eq_refl) as [Hrun _].
  split; [|reflexivity].
  rewrite (Hrun {| UserModerationRequestService.resolve :=
                     ret {| UserModerationRequestService.entity_ref :=
                              Scenario.user_42 |} |}
             {| UserModerationRequestService.entity_ref := Scenario.user_42 |}
             Transitions.UserModeration
             (GenericService.result_item
                (Scenario.request_of (Scenario.moderation_row "created")))
             Scenario.empty_world (Scenario.moderation_world "created")).
  - vm_compute. reflexivity.
  - reflexivity.
  - reflexivity.
  - reflexivity.
  - vm_compute. reflexivity.
Defined.

Lemma moderate_spec_witness :
  UserModerationRequestService.moderate Scenario.svc Scenario.moderator
    (Api.IdStr "1") "approve" None Scenario.world
  = UserModerationRequestService.moderate Scenario.svc Scenario.second_moderator
      (Api.IdStr "1") "approve" None Scenario.world.
Proof.
  destruct (moderate_spec Scenario.svc Scenario.moderator (Api.IdStr "1")
              "approve" None Scenario.world) as [_ Hsame].
  apply Hsame; reflexivity.
Defined.

Lemma search_moderation_requests_spec_witness :
  UserModerationRequestService.search_moderation_requests Scenario.svc
    Scenario.moderator None false Scenario.world
  = UserModerationRequestService.search
      (UserModerationRequestService.requests_service Scenario.svc)
      system_identity
      (Some (UserModerationRequestService.user_mod_only_q Transitions.UserModeration))
      ∅ false None Scenario.world
  /\ UserModerationRequestService.search_moderation_requests Scenario.svc
       Scenario.moderator None false Scenario.world
     = UserModerationRequestService.search_moderation_requests Scenario.svc
         Scenario.second_moderator None false Scenario.world.
Proof.
  destruct (search_moderation_requests_spec Scenario.svc Scenario.moderator
              None false Scenario.world eq_refl) as (Hrun & _ & Hsame).
  split.
  - apply Hrun. reflexivity.
  - apply Hsame. reflexivity.
Defined.

(** * Further properties of the embedded code *)

(** ** Expiry over time and across time zones *)

Lemma is_expired_value (utcnow : Z) (self : Request) :
  Api.is_expired utcnow self =
    Ok (match Api.expires_at self with
        | None => false
        | Some d => bool_decide (utc_instant d < utcnow)
        end).
Proof.
  unfold Api.is_expired. destruct (Api.expires_at self) as [d|]; [|reflexivity].
  rewrite datetime_lt_same_awareness by (symmetry; apply comparison_now_aware).
  rewrite comparison_now_instant. f_equal.
  destruct (Z.ltb_spec (utc_instant d) utcnow).
  - rewrite bool_decide_eq_true_2; auto.
  - rewrite bool_decide_eq_false_2; auto. lia.
Qed.

(** X1. Expiry is permanent and starts strictly after the instant of
    [expires_at]: a request expired at one time is expired at every later
    time, and at the very instant of [expires_at] it is not yet expired. *)
Theorem is_expired_monotone (utcnow later : Z) (self : Request) :
  utcnow <= later ->
  (Api.is_expired utcnow self = Ok true -> Api.is_expired later self = Ok true)
  /\ (forall d, Api.expires_at self = Some d ->
                Api.is_expired (utc_instant d) self = Ok false).
Proof.
  intros Hle. split.
  - rewrite !is_expired_value.
    destruct (Api.expires_at self) as [d|]; [|discriminate].
    intros H. injection H as Hb. apply bool_decide_eq_true in Hb.
    f_equal. apply bool_decide_eq_true. lia.
  - intros d Hd. rewrite is_expired_value, Hd. f_equal.
    apply bool_decide_eq_false. lia.
Qed.

Lemma is_expired_monotone_witness :
  Api.is_expired (12 * Scenario.one_hour)
    (Scenario.request_of (Scenario.expiring_row Scenario.noon_plus_one))
  = Ok true
  /\ Api.is_expired (11 * Scenario.one_hour)
       (Scenario.request_of (Scenario.expiring_row Scenario.noon_plus_one))
     = Ok false.
Proof.
  destruct (is_expired_monotone (11 * Scenario.one_hour + 1)
              (12 * Scenario.one_hour)
              (Scenario.request_of (Scenario.expiring_row Scenario.noon_plus_one)))
    as [Hlater Hedge]; [vm_compute; discriminate|].
  split.
  - apply Hlater. reflexivity.
  - apply (Hedge Scenario.noon_plus_one). reflexivity.
Defined.

(** X2. Only the instant of [expires_at] matters: two requests whose
    [expires_at] denote the same instant, whether naive (read as UTC) or
    aware in any zone, are expired at the same times. *)
Theorem is_expired_same_instant (utcnow : Z) (r1 r2 : Request)
    (d1 d2 : datetime) :
  Api.expires_at r1 = Some d1 ->
  Api.expires_at r2 = Some d2 ->
  utc_instant d1 = utc_instant d2 ->
  Api.is_expired utcnow r1 = Api.is_expired utcnow r2.
Proof.
  intros H1 H2 Heq. rewrite !is_expired_value, H1, H2, Heq. reflexivity.
Qed.

Lemma is_expired_same_instant_witness :
  Api.is_expired (11 * Scenario.one_hour + 1)
    (Scenario.request_of (Scenario.expiring_row Scenario.noon_plus_one))
  = Api.is_expired (11 * Scenario.one_hour + 1)
      (Scenario.request_of (Scenario.expiring_row Scenario.eleven_naive)).
Proof.
  apply (is_expired_same_instant _ _ _ Scenario.noon_plus_one
           Scenario.eleven_naive); reflexivity.
Defined.

(** ** What [get_record] returns and when it fails *)

Lemma get_record_from_query table id_ with_deleted r :
  Api.get_record table id_ with_deleted = Ok r ->
  exists m,
    r = {| data := model_data m; model := m |}
    /\ (In m (Api.query_by_external_id table id_ with_deleted)
        \/ In m (Api.query_by_id table id_ with_deleted)).
Proof.
  rewrite get_record_cases. intros H.
  destruct (length (Api.query_by_external_id table id_ with_deleted) =? 1)%nat.
  - destruct (Api.one _) as [m|e] eqn:Hone; simpl in H; inversion H.
    exists m. split; [reflexivity | left; eapply one_In; eauto].
  - destruct (Api.one _) as [m|e] eqn:Hone; simpl in H; inversion H.
    exists m. split; [reflexivity | right; eapply one_In; eauto].
Qed.

(** X3. A request returned by [get_record] is built from a row of the table
    (its document is the row's), and that row carries the identifier: as its
    external id, or else as its primary key. *)
Theorem get_record_sound (table : list RequestMetadata) (id_ : Api.PyId)
    (with_deleted : bool) (r : Request) :
  Api.get_record table id_ with_deleted = Ok r ->
  In (model r) table
  /\ data r = model_data (model r)
  /\ (external_id (model r) = Some (Api.str id_)
      \/ Api.id_is id_ (model r) = true).
Proof.
  intros H. apply get_record_from_query in H as (m & -> & Hin). simpl.
  rewrite query_by_external_id_filter, query_by_id_filter in Hin.
  destruct Hin as [Hin|Hin]; apply List.filter_In in Hin as [Hin Hsel];
    apply andb_true_iff in Hsel as [Hsel _]; repeat split; auto.
  left. unfold Api.external_id_is in Hsel.
  destruct (external_id m) as [e|]; [|discriminate].
  apply bool_decide_eq_true in Hsel. congruence.
Qed.

Lemma get_record_sound_witness :
  In (model (Scenario.request_of Scenario.unnumbered_row)) Scenario.table
  /\ data (Scenario.request_of Scenario.unnumbered_row)
     = model_data (model (Scenario.request_of Scenario.unnumbered_row))
  /\ (external_id (model (Scenario.request_of Scenario.unnumbered_row))
      = Some (Api.str (Api.IdUUID "req-2"))
      \/ Api.id_is (Api.IdUUID "req-2")
           (model (Scenario.request_of Scenario.unnumbered_row)) = true).
Proof.
  apply (get_record_sound Scenario.table (Api.IdUUID "req-2") false).
  reflexivity.
Defined.

Lemma filter_nil_bool {A} (p : A -> bool) (l : list A) :
  (forall x, In x l -> p x = false) -> List.filter p l = [].
Proof.
  induction l as [|x l IH]; simpl; intros H; [reflexivity|].
  rewrite (H x) by auto. apply IH. intros y Hy. apply H. auto.
Qed.

(** X4. When every row that carries the identifier (as external id or as
    primary key) is hidden by the deletion filter, and in particular when no
    row carries it or the table is empty, [get_record] raises
    [NoResultFound]. *)
Theorem get_record_not_found (table : list RequestMetadata) (id_ : Api.PyId)
    (with_deleted : bool) :
  (forall m, In m table ->
     Api.external_id_is (Api.str id_) m = true \/ Api.id_is id_ m = true ->
     with_deleted = false /\ is_deleted m = true) ->
  Api.get_record table id_ with_deleted = Err NoResultFound.
Proof.
  intros Hhidden. rewrite get_record_cases.
  rewrite query_by_external_id_filter, query_by_id_filter.
  rewrite !filter_nil_bool; [reflexivity | |].
  - intros m Hm. destruct (Api.id_is id_ m) eqn:Hid; [|reflexivity].
    destruct (Hhidden m Hm) as [-> ->]; auto.
  - intros m Hm. destruct (Api.external_id_is (Api.str id_) m) eqn:Hext;
      [|reflexivity].
    destruct (Hhidden m Hm) as [-> ->]; auto.
Qed.

Lemma get_record_not_found_witness :
  Api.get_record Scenario.table (Api.IdStr "2") false = Err NoResultFound
  /\ Api.get_record [] (Api.IdStr "2") true = Err NoResultFound.
Proof.
  split.
  - apply get_record_not_found. intros m Hm Hcarries.
    repeat (destruct Hm as [<-|Hm]; [vm_compute in Hcarries |- *;
      intuition discriminate|]).
    destruct Hm.
  - apply get_record_not_found. intros m [].
Defined.

(** X5. [get_record(None)] looks for the external id ["None"] and then for
    a NULL primary key, which no row has: it returns a row whose external id
    is the string ["None"] or raises [NoResultFound]; it never returns
    without a request. *)
Theorem get_record_None (table : list RequestMetadata) (with_deleted : bool) :
  match Api.get_record table Api.IdNone with_deleted with
  | Ok r => external_id (model r) = Some "None"
  | Err e => e = NoResultFound
  end.
Proof.
  rewrite get_record_cases.
  assert (Hid : Api.query_by_id table Api.IdNone with_deleted = []).
  { rewrite query_by_id_filter. apply filter_nil_bool. reflexivity. }
  rewrite Hid.
  destruct (Api.query_by_external_id table Api.IdNone with_deleted)
    as [|m [|m' rows]] eqn:Hq; simpl; try reflexivity.
  assert (Hin : In m (Api.query_by_external_id table Api.IdNone with_deleted))
    by (rewrite Hq; left; reflexivity).
  rewrite query_by_external_id_filter in Hin.
  apply List.filter_In in Hin as [_ Hsel].
  apply andb_true_iff in Hsel as [Hsel _].
  unfold Api.external_id_is in Hsel.
  destruct (external_id m) as [e|]; [|discriminate].
  apply bool_decide_eq_true in Hsel. simpl in Hsel. congruence.
Qed.

Lemma filter_key_at_most_one (p : RequestMetadata -> bool) (key : UUID)
    (table : list RequestMetadata) :
  (forall m, p m = true -> model_id m = key) ->
  NoDup (map model_id table) ->
  (length (List.filter p table) <= 1)%nat.
Proof.
  intros Hkey. induction table as [|m table IH]; simpl; intros Hnd; [lia|].
  apply NoDup_cons in Hnd as [Hnotin Hnd].
  destruct (p m) eqn:Hp; [|auto].
  rewrite filter_nil_bool; [simpl; lia|].
  intros m' Hm'. destruct (p m') eqn:Hp'; [|reflexivity].
  exfalso. apply Hnotin. rewrite (Hkey m Hp), <- (Hkey m' Hp').
  apply list_elem_of_In, List.in_map, Hm'.
Qed.

Lemma query_by_id_at_most_one table id_ with_deleted :
  NoDup (map model_id table) ->
  (length (Api.query_by_id table id_ with_deleted) <= 1)%nat.
Proof.
  intros Hnd. rewrite query_by_id_filter.
  apply (filter_key_at_most_one _ (Api.str id_)); [|assumption].
  intros m Hm. apply andb_true_iff in Hm as [Hm _].
  destruct id_; simpl in *; [discriminate| |];
    apply bool_decide_eq_true in Hm; assumption.
Qed.

(** X6. With unique primary keys [get_record] never fails with
    [MultipleResultsFound]: an ambiguous external id falls back to the
    primary key, so the call returns a request or raises [NoResultFound]. *)
Theorem get_record_unique_ids (table : list RequestMetadata) (id_ : Api.PyId)
    (with_deleted : bool) :
  NoDup (map model_id table) ->
  (exists r, Api.get_record table id_ with_deleted = Ok r)
  \/ Api.get_record table id_ with_deleted = Err NoResultFound.
Proof.
  intros Hnd. rewrite get_record_cases.
  pose proof (query_by_id_at_most_one table id_ with_deleted Hnd) as Hle.
  destruct (Api.query_by_external_id table id_ with_deleted)
    as [|m [|m' rows]]; simpl;
    destruct (Api.query_by_id table id_ with_deleted) as [|n [|n' rows']];
    simpl in *; try lia; eauto.
Qed.

(** Two live rows share the external id ["1"]. *)
Lemma get_record_unique_ids_witness :
  Api.get_record (Scenario.table ++ [Scenario.row "req-4" (Some "1") false
                                       "publication" "created"])
    (Api.IdStr "1") false = Err NoResultFound.
Proof.
  destruct (get_record_unique_ids
              (Scenario.table ++ [Scenario.row "req-4" (Some "1") false
                                    "publication" "created"])
              (Api.IdStr "1") false) as [[r Hr]|Hnone].
  - apply (bool_decide_unpack _). vm_compute. exact I.
  - vm_compute in Hr. discriminate.
  - exact Hnone.
Defined.

(** ** Unknown actions and unknown requests *)

Lemma get_request_run (self : RequestsService.t) (id_ : Api.PyId) (w : World) :
  RequestsService._get_request self id_ w =
    (match List.filter (Api.external_id_is (Api.str id_)) (db w) with
     | [m] => RequestsService._request_from_model self (Some m)
     | _ => RequestsService._request_from_model self
              (RequestsService.query_get (db w) id_)
     end, w).
Proof.
  unfold RequestsService._get_request, reads. f_equal.
  destruct (List.filter _ (db w)) as [|m [|m' rows]]; reflexivity.
Qed.

(** X8. An action name that the request's type does not define is answered
    with [NoSuchActionError] by [Request.execute_action] and by the service's
    [execute_action] alike (the service's bare [Exception] is for actions
    that exist), and nothing is executed: the world is unchanged. *)
Theorem execute_action_unknown_action (reg : Registry) (self : Request)
    (T : RequestType) (name : string) (identity : Identity) (w : World) :
  Api.request_type reg self = Ok T ->
  available_actions T !! name = None ->
  Api.execute_action reg self name identity w = (Err (NoSuchActionError name), w)
  /\ (forall rs id_,
        RequestsService.request_type_registry rs = reg ->
        RequestsService._get_request rs id_ w = (Ok self, w) ->
        RequestsService.execute_action rs name id_ identity w
        = (Err (NoSuchActionError name), w)).
Proof.
  intros HT Hnone.
  assert (Hget : Api.get_action reg self name = Err (NoSuchActionError name)).
  { rewrite (get_action_registered reg self T name HT), Hnone. reflexivity. }
  split.
  - unfold Api.execute_action, bind, lift. rewrite Hget. reflexivity.
  - intros rs id_ <- Hreq.
    unfold RequestsService.execute_action, bind, lift, Api.can_execute_action.
    rewrite Hreq, Hget. reflexivity.
Qed.

Lemma execute_action_unknown_action_witness :
  Api.execute_action Scenario.registry
    (Scenario.request_of Scenario.accepted_row) "publish" Scenario.visitor
    Scenario.world = (Err (NoSuchActionError "publish"), Scenario.world)
  /\ RequestsService.execute_action Scenario.rs "publish" (Api.IdStr "1")
       Scenario.visitor Scenario.world
     = (Err (NoSuchActionError "publish"), Scenario.world).
Proof.
  destruct (execute_action_unknown_action Scenario.registry
              (Scenario.request_of Scenario.accepted_row)
              Transitions.UserModeration "publish" Scenario.visitor
              Scenario.world) as [Hapi Hservice]; [reflexivity|reflexivity|].
  split; [exact Hapi|].
  apply Hservice; reflexivity.
Defined.

Lemma find_none_bool {A} (p : A -> bool) (l : list A) :
  (forall x, In x l -> p x = false) -> List.find p l = None.
Proof.
  induction l as [|x l IH]; simpl; intros H; [reflexivity|].
  rewrite (H x) by auto. apply IH. intros y Hy. apply H. auto.
Qed.

(** X9. For an identifier that no row carries, neither as external id nor
    as primary key, the service finds no model and [_request_from_model]
    fails on [model.data]: [_get_request], [read], [delete] and
    [execute_action] all raise [AttributeError], before any permission check
    and without changing the world. *)
Theorem unknown_request_AttributeError (self : RequestsService.t)
    (id_ : Api.PyId) (identity : Identity) (action : string) (w : World) :
  (forall m, In m (db w) ->
     Api.external_id_is (Api.str id_) m = false /\ Api.id_is id_ m = false) ->
  RequestsService._get_request self id_ w = (Err PyAttributeError, w)
  /\ RequestsService.read self id_ identity w = (Err PyAttributeError, w)
  /\ RequestsService.delete self id_ identity w = (Err PyAttributeError, w)
  /\ RequestsService.execute_action self action id_ identity w
     = (Err PyAttributeError, w).
Proof.
  intros Hunknown.
  assert (Hget : RequestsService._get_request self id_ w
                 = (Err PyAttributeError, w)).
  { rewrite get_request_run.
    rewrite filter_nil_bool by (intros m Hm; apply (Hunknown m Hm)).
    unfold RequestsService.query_get.
    rewrite find_none_bool by (intros m Hm; apply (Hunknown m Hm)).
    reflexivity. }
  repeat split; auto.
  - unfold RequestsService.read, bind. rewrite Hget. reflexivity.
  - unfold RequestsService.delete, bind. rewrite Hget. reflexivity.
  - unfold RequestsService.execute_action, bind. rewrite Hget. reflexivity.
Qed.

Lemma unknown_request_AttributeError_witness :
  RequestsService.read Scenario.rs_moderated (Api.IdStr "77") Scenario.visitor
    Scenario.world = (Err PyAttributeError, Scenario.world)
  /\ RequestsService.delete Scenario.rs_moderated Api.IdNone Scenario.visitor
       Scenario.world = (Err PyAttributeError, Scenario.world).
Proof.
  destruct (unknown_request_AttributeError Scenario.rs_moderated
              (Api.IdStr "77") Scenario.visitor "submit" Scenario.world)
    as (_ & Hread & _).
  { intros m Hm.
    repeat (destruct Hm as [<-|Hm]; [split; reflexivity|]). destruct Hm. }
  destruct (unknown_request_AttributeError Scenario.rs_moderated
              Api.IdNone Scenario.visitor "submit" Scenario.world)
    as (_ & _ & Hdelete & _).
  { intros m Hm.
    repeat (destruct Hm as [<-|Hm]; [split; reflexivity|]). destruct Hm. }
  split; assumption.
Defined.

(** ** The service's lookup and [get_record] *)

Lemma find_head_filter {A} (p : A -> bool) (l : list A) :
  List.find p l = List.hd_error (List.filter p l).
Proof.
  induction l as [|x l IH]; simpl; [reflexivity|].
  destruct (p x); [reflexivity | exact IH].
Qed.

Lemma request_from_model_Ok (self : RequestsService.t) (m : RequestMetadata)
    (r : Request) :
  RequestsService._request_from_model self (Some m) = Ok r ->
  r = {| data := model_data m; model := m |}.
Proof.
  unfold RequestsService._request_from_model.
  destruct (RequestsService.registry_lookup _ _); simpl; intros H;
    inversion H; reflexivity.
Qed.

Lemma request_from_model_registered (self : RequestsService.t)
    (m : RequestMetadata) :
  is_Ok (RequestsService.registry_lookup
           (RequestsService.request_type_registry self)
           (model_data m !! "request_type")) = true ->
  RequestsService._request_from_model self (Some m)
  = Ok {| data := model_data m; model := m |}.
Proof.
  unfold RequestsService._request_from_model.
  destruct (RequestsService.registry_lookup _ _); [reflexivity|discriminate].
Qed.

(** X10. The service's [_get_request] and [Request.get_record] with
    [with_deleted=True] look a request up in the same way: a request that
    [get_record] returns is returned by [_get_request] when its type is
    registered, and with unique primary keys a request that [_get_request]
    returns is the one [get_record] returns.  In particular the service does
    not hide deleted requests. *)
Theorem get_request_agrees_with_get_record (self : RequestsService.t)
    (id_ : Api.PyId) (w : World) (r : Request) :
  (Api.get_record (db w) id_ true = Ok r ->
   is_Ok (RequestsService.registry_lookup
            (RequestsService.request_type_registry self)
            (data r !! "request_type")) = true ->
   RequestsService._get_request self id_ w = (Ok r, w))
  /\ (NoDup (map model_id (db w)) ->
      RequestsService._get_request self id_ w = (Ok r, w) ->
      Api.get_record (db w) id_ true = Ok r).
Proof.
  split.
  - rewrite get_record_cases, get_request_run.
    unfold Api.query_by_external_id, Api.query_by_id. simpl.
    intros Hrec Hreg. f_equal.
    unfold RequestsService.query_get. rewrite find_head_filter.
    destruct (List.filter (Api.external_id_is (Api.str id_)) (db w))
      as [|m [|m' rows]]; simpl in Hrec;
      try (destruct (List.filter (Api.id_is id_) (db w)) as [|n [|n' rows']];
           simpl in Hrec; try discriminate);
      injection Hrec as <-; simpl in *;
      apply request_from_model_registered; exact Hreg.
  - intros Hnd Hreq. rewrite get_request_run in Hreq.
    injection Hreq as Hfrom. rewrite get_record_cases.
    pose proof (query_by_id_at_most_one (db w) id_ true Hnd) as Hle.
    unfold RequestsService.query_get in Hfrom.
    rewrite find_head_filter in Hfrom.
    unfold Api.query_by_external_id, Api.query_by_id in *. simpl in Hle |- *.
    destruct (List.filter (Api.external_id_is (Api.str id_)) (db w))
      as [|m [|m' rows]];
      destruct (List.filter (Api.id_is id_) (db w)) as [|n [|n' rows']];
      simpl in *; try lia; try discriminate;
      apply request_from_model_Ok in Hfrom; subst r; reflexivity.
Qed.

Lemma get_request_agrees_with_get_record_witness :
  RequestsService._get_request Scenario.rs (Api.IdStr "2") Scenario.world
  = (Ok (Scenario.request_of Scenario.deleted_row), Scenario.world)
  /\ Api.get_record (db Scenario.world) (Api.IdUUID "req-2") true
     = Ok (Scenario.request_of Scenario.unnumbered_row).
Proof.
  destruct (get_request_agrees_with_get_record Scenario.rs (Api.IdStr "2")
              Scenario.world (Scenario.request_of Scenario.deleted_row))
    as [Hto _].
  destruct (get_request_agrees_with_get_record Scenario.rs (Api.IdUUID "req-2")
              Scenario.world (Scenario.request_of Scenario.unnumbered_row))
    as [_ Hfrom].
  split.
  - apply Hto; reflexivity.
  - apply Hfrom; [apply (bool_decide_unpack _); vm_compute; exact I
                 | reflexivity].
Defined.

(** ** Permissions and deletion in the requests service *)

(** X11. [read] and [delete] check the permission on the request they
    loaded; a caller the policy refuses gets the permission error of that
    action, no component runs, no row is flagged and the index keeps its
    document: the world is unchanged. *)
Theorem denied_leaves_world (self : RequestsService.t) (id_ : Api.PyId)
    (identity : Identity) (w : World) (request : Request) :
  RequestsService._get_request self id_ w = (Ok request, w) ->
  (RequestsService.permission_policy self "read" identity (Some request) = false ->
   RequestsService.read self id_ identity w
   = (Err (PermissionDeniedError "read"), w))
  /\ (RequestsService.permission_policy self "delete" identity (Some request)
      = false ->
      RequestsService.delete self id_ identity w
      = (Err (PermissionDeniedError "delete"), w)).
Proof.
  intros Hget. split; intros Hperm.
  - unfold RequestsService.read, bind, RequestsService.require_permission.
    rewrite Hget, Hperm. reflexivity.
  - unfold RequestsService.delete, bind, RequestsService.require_permission.
    rewrite Hget, Hperm. reflexivity.
Qed.

Lemma denied_leaves_world_witness :
  RequestsService.read Scenario.rs_moderated (Api.IdStr "1") Scenario.visitor
    Scenario.world = (Err (PermissionDeniedError "read"), Scenario.world)
  /\ RequestsService.delete Scenario.rs_moderated (Api.IdStr "1")
       Scenario.visitor Scenario.world
     = (Err (PermissionDeniedError "delete"), Scenario.world).
Proof.
  destruct (denied_leaves_world Scenario.rs_moderated (Api.IdStr "1")
              Scenario.visitor Scenario.world
              (Scenario.request_of Scenario.accepted_row) eq_refl)
    as [Hread Hdelete].
  split; [apply Hread | apply Hdelete]; reflexivity.
Defined.

Lemma get_record_In table id_ with_deleted r :
  Api.get_record table id_ with_deleted = Ok r -> In (model r) table.
Proof.
  intros H. apply get_record_from_query in H as (m & -> & Hin). simpl.
  rewrite query_by_external_id_filter, query_by_id_filter in Hin.
  destruct Hin as [Hin|Hin]; apply List.filter_In in Hin as [Hin _]; exact Hin.
Qed.

(** X12. After a successful [delete] of the request with primary key [k], no
    default lookup, under whatever identifier, returns a request with that
    key, while the rows and index documents of all other requests are what
    they were. *)
Theorem delete_then_get_record (self : RequestsService.t) (id_ : Api.PyId)
    (identity : Identity) (w w1 : World) (request : Request) :
  RequestsService._get_request self id_ w = (Ok request, w) ->
  RequestsService.permission_policy self "delete" identity (Some request) = true ->
  RequestsService.run_delete_components
    (RequestsService.components self) identity request w = (Ok tt, w1) ->
  exists w',
    RequestsService.delete self id_ identity w = (Ok true, w')
    /\ (forall other r,
          Api.get_record (db w') other false = Ok r ->
          model_id (model r) <> model_id (model request))
    /\ (forall m, In m (db w1) -> model_id m <> model_id (model request) ->
                  In m (db w'))
    /\ (forall k, k <> model_id (model request) ->
                  search_index w' !! k = search_index w1 !! k).
Proof.
  intros Hget Hperm Hhooks. eexists.
  split; [eapply delete_run; eauto|]. simpl. split; [|split].
  - intros other r Hrec Hkey.
    pose proof (get_record_not_deleted _ _ _ Hrec) as Hlive.
    apply get_record_In in Hrec.
    rewrite (flagged_is_deleted _ _ _ Hrec Hkey) in Hlive. discriminate.
  - intros m Hin Hkey. unfold RequestsService.flagged.
    apply List.in_map_iff. exists m. split; [|exact Hin].
    rewrite bool_decide_eq_false_2 by exact Hkey. reflexivity.
  - intros k Hk. destruct (RequestsService.indexer self); [|reflexivity].
    apply lookup_delete_ne. congruence.
Qed.

Lemma delete_then_get_record_witness :
  exists w',
    RequestsService.delete Scenario.rs_moderated (Api.IdStr "1")
      Scenario.moderator Scenario.world = (Ok true, w')
    /\ Api.get_record (db w') (Api.IdStr "1") false = Err NoResultFound
    /\ In Scenario.unnumbered_row (db w')
    /\ search_index w' !! "req-2" = search_index Scenario.world !! "req-2".
Proof.
  destruct (delete_then_get_record Scenario.rs_moderated (Api.IdStr "1")
              Scenario.moderator Scenario.world Scenario.world
              (Scenario.request_of Scenario.accepted_row)
              eq_refl eq_refl eq_refl)
    as (w' & Hrun & Hhidden & Hrows & Hindex).
  exists w'. split; [exact Hrun|]. split; [|split].
  - vm_compute in Hrun. inversion Hrun. vm_compute. reflexivity.
  - apply Hrows; [vm_compute; auto | discriminate].
  - apply Hindex. discriminate.
Defined.

(** ** Rebuilding the index *)

Lemma rebuild_index_loop_cons (self : RequestsService.t)
    (m : RequestMetadata) (rows : list RequestMetadata) (w : World) :
  RequestsService.rebuild_index_loop self (m :: rows) w =
    match RequestsService._request_from_model self (Some m) with
    | Ok request =>
        match (if negb (is_deleted (model request))
               then RequestsService.indexer_index self request
               else ret tt) w with
        | (Ok _, w1) => RequestsService.rebuild_index_loop self rows w1
        | (Err e, w1) => (Err e, w1)
        end
    | Err e => (Err e, w)
    end.
Proof.
  simpl. unfold bind, lift.
  destruct (RequestsService._request_from_model self (Some m)); reflexivity.
Qed.










Lemma rebuild_index_loop_without_indexer (self : RequestsService.t)
    (rows : list RequestMetadata) (w : World) :
  RequestsService.indexer self = false ->
  (forall m, In m rows ->
     is_Ok (RequestsService.registry_lookup
              (RequestsService.request_type_registry self)
              (model_data m !! "request_type")) = true) ->
  RequestsService.rebuild_index_loop self rows w =
    (if forallb is_deleted rows then Ok tt else Err PyAttributeError, w).
Proof.
  intros Hindexer. induction rows as [|m rows IH]; intros Hreg;
    [reflexivity|].
  rewrite rebuild_index_loop_cons.
  rewrite request_from_model_registered by (apply Hreg; left; reflexivity).
  simpl. unfold RequestsService.indexer_index. rewrite Hindexer.
  destruct (is_deleted m); simpl; [|reflexivity].
  apply IH. intros m' Hm'. apply Hreg. right. exact Hm'.
Qed.

(** X15. [rebuild_index] calls [self.indexer.index] without testing
    [self.indexer] (which [delete] does test): on a service without indexer
    it raises [AttributeError] as soon as the table has a row that is not
    deleted, and succeeds only when every row is deleted.  The world is
    unchanged either way. *)
Theorem rebuild_index_without_indexer (self : RequestsService.t)
    (identity : Identity) (w : World) :
  RequestsService.indexer self = false ->
  (forall m, In m (db w) ->
     is_Ok (RequestsService.registry_lookup
              (RequestsService.request_type_registry self)
              (model_data m !! "request_type")) = true) ->
  RequestsService.rebuild_index self identity w =
    (if forallb is_deleted (db w) then Ok tt else Err PyAttributeError, w).
Proof.
  intros Hindexer Hreg. unfold RequestsService.rebuild_index.
  apply rebuild_index_loop_without_indexer; assumption.
Qed.

Lemma rebuild_index_without_indexer_witness :
  RequestsService.rebuild_index Scenario.rs_without_indexer Scenario.visitor
    Scenario.world = (Err PyAttributeError, Scenario.world)
  /\ RequestsService.rebuild_index Scenario.rs_without_indexer Scenario.visitor
       {| db := [Scenario.deleted_row]; search_index := ∅ |}
     = (Ok tt, {| db := [Scenario.deleted_row]; search_index := ∅ |}).
Proof.
  split.
  - apply (rebuild_index_without_indexer Scenario.rs_without_indexer
             Scenario.visitor Scenario.world eq_refl).
    intros m Hm. simpl in Hm.
    repeat (destruct Hm as [<-|Hm]; [reflexivity|]). destruct Hm.
  - apply (rebuild_index_without_indexer Scenario.rs_without_indexer
             Scenario.visitor
             {| db := [Scenario.deleted_row]; search_index := ∅ |} eq_refl).
    intros m Hm. simpl in Hm.
    repeat (destruct Hm as [<-|Hm]; [reflexivity|]). destruct Hm.
Defined.

(** ** The user-moderation service: permissions and early failures *)

Section UserModerationMore.
Import UserModerationRequestService.

Variable self : UserModerationRequestService.t.

(** X16. [read] first requires the [read] permission of the caller and then
    is the requests service's [read] under [system_identity]: two callers
    holding the permission get the same outcome, whatever they could read
    themselves. *)
Theorem read_spec (identity : Identity) (request_id : Api.PyId) (w : World) :
  read_ self identity request_id w =
    (if permission_policy self "read" identity
     then read (requests_service self) system_identity request_id w
     else (Err (PermissionDeniedError "read"), w))
  /\ (forall other : Identity,
        permission_policy self "read" identity = true ->
        permission_policy self "read" other = true ->
        read_ self identity request_id w = read_ self other request_id w).
Proof.
  assert (Hrun : forall i,
             read_ self i request_id w =
             if permission_policy self "read" i
             then read (requests_service self) system_identity request_id w
             else (Err (PermissionDeniedError "read"), w)).
  { intros i. unfold read_, bind. rewrite require_permission_run.
    destruct (permission_policy self "read" i); reflexivity. }
  split; [apply Hrun|].
  intros other H1 H2. rewrite !Hrun, H1, H2. reflexivity.
Qed.

(** X17. Each method of the user-moderation service is guarded by a
    permission of its own ([read], [moderate], [request_moderation],
    [search_requests]).  A caller lacking it gets the permission error of
    that action whatever the other arguments are, and the requests service
    is not called: the world is unchanged. *)
Theorem denied_calls_do_nothing (identity : Identity) (w : World) :
  (permission_policy self "read" identity = false ->
   forall request_id,
     read_ self identity request_id w = (Err (PermissionDeniedError "read"), w))
  /\ (permission_policy self "moderate" identity = false ->
      forall request_id action data,
        moderate self identity request_id action data w
        = (Err (PermissionDeniedError "moderate"), w))
  /\ (permission_policy self "request_moderation" identity = false ->
      forall creator topic data,
        request_moderation self identity creator topic data w
        = (Err (PermissionDeniedError "request_moderation"), w))
  /\ (permission_policy self "search_requests" identity = false ->
      forall params expand,
        search_moderation_requests self identity params expand w
        = (Err (PermissionDeniedError "search_requests"), w)).
Proof.
  repeat split; intros Hperm; intros.
  - unfold read_, bind. rewrite require_permission_run, Hperm. reflexivity.
  - unfold moderate, bind. rewrite require_permission_run, Hperm. reflexivity.
  - unfold request_moderation, bind.
    rewrite require_permission_run, Hperm. reflexivity.
  - unfold search_moderation_requests, bind.
    rewrite require_permission_run, Hperm. reflexivity.
Qed.

(** X18. [request_moderation] resolves the topic and looks the request type
    up before it creates anything: when the reference [{"user": topic}] has
    no resolver, when the proxy fails to resolve, or when the
    user-moderation type is not registered, that error is raised and the
    requests service is not called. *)
Theorem request_moderation_early_failure (identity : Identity)
    (topic : string) (data : option (gmap string JsonVal)) (w : World) :
  permission_policy self "request_moderation" identity = true ->
  (forall e,
      resolve_entity_proxy self {| ref_kind := "user"; ref_id := topic |}
      = Err e ->
      request_moderation self identity system_user_id topic data w = (Err e, w))
  /\ (forall proxy e w1,
        resolve_entity_proxy self {| ref_kind := "user"; ref_id := topic |}
        = Ok proxy ->
        resolve proxy w = (Err e, w1) ->
        request_moderation self identity system_user_id topic data w
        = (Err e, w1))
  /\ (forall proxy user w1,
        resolve_entity_proxy self {| ref_kind := "user"; ref_id := topic |}
        = Ok proxy ->
        resolve proxy w = (Ok user, w1) ->
        current_request_type_registry self !! UserModeration_type_id = None ->
        exists e,
          request_moderation self identity system_user_id topic data w
          = (Err e, w1)).
Proof.
  intros Hperm. split; [|split].
  - intros e He. rewrite request_moderation_steps, He by assumption.
    reflexivity.
  - intros proxy e w1 Hproxy He.
    rewrite request_moderation_steps, Hproxy, He by assumption. reflexivity.
  - intros proxy user w1 Hproxy Huser Hnone.
    rewrite request_moderation_steps, Hproxy, Huser by assumption.
    unfold request_type_cls. rewrite Hnone. eexists. reflexivity.
Qed.

End UserModerationMore.

Lemma read_spec_witness :
  UserModerationRequestService.read_ Scenario.svc Scenario.moderator
    (Api.IdStr "1") Scenario.world
  = UserModerationRequestService.read_ Scenario.svc Scenario.second_moderator
      (Api.IdStr "1") Scenario.world.
Proof.
  destruct (read_spec Scenario.svc Scenario.moderator (Api.IdStr "1")
              Scenario.world) as [_ Hsame].
  apply Hsame; reflexivity.
Defined.

Lemma denied_calls_do_nothing_witness :
  UserModerationRequestService.moderate Scenario.svc Scenario.visitor
    (Api.IdStr "1") "approve" None Scenario.world
  = (Err (PermissionDeniedError "moderate"), Scenario.world)
  /\ UserModerationRequestService.search_moderation_requests Scenario.svc
       Scenario.visitor None true Scenario.world
     = (Err (PermissionDeniedError "search_requests"), Scenario.world)
  /\ UserModerationRequestService.read_ Scenario.svc Scenario.visitor
       (Api.IdStr "1") Scenario.world
     = (Err (PermissionDeniedError "read"), Scenario.world)
  /\ UserModerationRequestService.request_moderation Scenario.svc
       Scenario.visitor system_user_id "42" None Scenario.world
     = (Err (PermissionDeniedError "request_moderation"), Scenario.world).
Proof.
  destruct (denied_calls_do_nothing Scenario.svc Scenario.visitor
              Scenario.world) as (Hread & Hmoderate & Hrequest & Hsearch).
  split; [|split; [|split]].
  - apply Hmoderate. reflexivity.
  - apply Hsearch. reflexivity.
  - apply Hread. reflexivity.
  - apply Hrequest. reflexivity.
Defined.

(** A service whose resolver knows no reference, and one whose registry has
    no user-moderation type. *)
Lemma request_moderation_early_failure_witness :
  UserModerationRequestService.request_moderation
    {| UserModerationRequestService.requests_service :=
         GenericService.api Scenario.rs;
       UserModerationRequestService.permission_policy :=
         Scenario.moderation_policy;
       UserModerationRequestService.current_request_type_registry :=
         Scenario.registry;
       UserModerationRequestService.resolve_entity_proxy :=
         fun _ => Err UnresolvableReferenceError |}
    Scenario.moderator system_user_id "42" None Scenario.world
  = (Err UnresolvableReferenceError, Scenario.world)
  /\ UserModerationRequestService.request_moderation
       {| UserModerationRequestService.requests_service :=
            GenericService.api Scenario.rs;
          UserModerationRequestService.permission_policy :=
            Scenario.moderation_policy;
          UserModerationRequestService.current_request_type_registry := ∅;
          UserModerationRequestService.resolve_entity_proxy :=
            Scenario.resolver |}
       Scenario.moderator system_user_id "42" None Scenario.world
     = (Err (UnknownTypeError
               (Some UserModerationRequestService.UserModeration_type_id)),
        Scenario.world).
Proof.
  split.
  - match goal with
    | |- UserModerationRequestService.request_moderation ?s _ _ _ _ _ = _ =>
        destruct (request_moderation_early_failure s Scenario.moderator "42"
                    None Scenario.world eq_refl) as (Hnone & _ & _)
    end.
    apply Hnone. reflexivity.
  - match goal with
    | |- UserModerationRequestService.request_moderation ?s _ _ _ _ _ = _ =>
        destruct (request_moderation_early_failure s Scenario.moderator "42"
                    None Scenario.world eq_refl) as (_ & _ & Htype)
    end.
    destruct (Htype {| UserModerationRequestService.resolve :=
                      ret {| UserModerationRequestService.entity_ref :=
                               Scenario.user_42 |} |}
             {| UserModerationRequestService.entity_ref := Scenario.user_42 |}
             Scenario.world eq_refl eq_refl eq_refl) as [e He].
    rewrite He. vm_compute in He. injection He as <-. reflexivity.
Defined.

(** ** More on lookups and deletion *)

Lemma filter_all_bool {A} (p : A -> bool) (l : list A) :
  (forall x, In x l -> p x = true) -> List.filter p l = l.
Proof.
  induction l as [|x l IH]; simpl; intros H; [reflexivity|].
  rewrite (H x) by auto. f_equal. apply IH. intros y Hy. apply H. auto.
Qed.

(** X19. [with_deleted] matters only when there are deleted rows: on a
    table without them [get_record] gives the same result with
    [with_deleted=True] and with [with_deleted=False]. *)
Theorem get_record_without_deleted_rows (table : list RequestMetadata)
    (id_ : Api.PyId) :
  (forall m, In m table -> is_deleted m = false) ->
  Api.get_record table id_ true = Api.get_record table id_ false.
Proof.
  intros Hlive. rewrite !get_record_cases.
  unfold Api.query_by_external_id, Api.query_by_id. simpl.
  rewrite !(filter_all_bool Api.not_deleted); [reflexivity| |];
    intros m Hm; apply List.filter_In in Hm as [Hm _];
    unfold Api.not_deleted; rewrite (Hlive m Hm); reflexivity.
Qed.

Lemma get_record_without_deleted_rows_witness :
  Api.get_record [Scenario.accepted_row; Scenario.unnumbered_row]
    (Api.IdStr "req-2") true
  = Api.get_record [Scenario.accepted_row; Scenario.unnumbered_row]
      (Api.IdStr "req-2") false.
Proof.
  apply get_record_without_deleted_rows.
  intros m [<-|[<-|[]]]; reflexivity.
Defined.

Lemma run_delete_components_app (before rest : list RequestsService.Component)
    (identity : Identity) (record : Request) (w : World) :
  RequestsService.run_delete_components (before ++ rest) identity record w =
    match RequestsService.run_delete_components before identity record w with
    | (Ok _, w0) => RequestsService.run_delete_components rest identity record w0
    | (Err e, w0) => (Err e, w0)
    end.
Proof.
  revert w. induction before as [|c before IH]; intros w; simpl;
    [reflexivity|].
  destruct (RequestsService.component_delete c) as [hook|]; [|apply IH].
  unfold bind. destruct (hook identity record w) as [[[]|e] w0];
    [apply IH | reflexivity].
Qed.

(** X20. The [delete] hooks of the components run in order, before the
    request is deleted.  When a hook raises, the hooks after it do not run,
    the error is the outcome of [delete], and the service neither flags the
    row nor touches the index: the world is the one the failed hook left. *)
Theorem delete_aborted_by_component (self : RequestsService.t)
    (id_ : Api.PyId) (identity : Identity) (w w0 w1 : World)
    (request : Request) (before after : list RequestsService.Component)
    (c : RequestsService.Component) (hook : Identity -> Request -> M unit)
    (e : Error) :
  RequestsService._get_request self id_ w = (Ok request, w) ->
  RequestsService.permission_policy self "delete" identity (Some request) = true ->
  RequestsService.components self = (before ++ c :: after)%list ->
  RequestsService.run_delete_components before identity request w = (Ok tt, w0) ->
  RequestsService.component_delete c = Some hook ->
  hook identity request w0 = (Err e, w1) ->
  RequestsService.delete self id_ identity w = (Err e, w1).
Proof.
  intros Hget Hperm Hcomponents Hbefore Hc Hhook.
  unfold RequestsService.delete, bind, RequestsService.require_permission.
  rewrite Hget, Hperm. simpl.
  rewrite Hcomponents, run_delete_components_app, Hbefore. simpl.
  rewrite Hc. unfold bind. rewrite Hhook. reflexivity.
Qed.

Lemma delete_aborted_by_component_witness :
  let locked : RequestsService.Component :=
    {| RequestsService.component_read := None;
       RequestsService.component_delete :=
         Some (fun _ _ => raise (ActionFailure "locked")) |} in
  let silent : RequestsService.Component :=
    {| RequestsService.component_read := None;
       RequestsService.component_delete := None |} in
  RequestsService.delete
    {| RequestsService.permission_policy := fun _ _ _ => true;
       RequestsService.request_type_registry := Scenario.registry;
       RequestsService.indexer := true;
       RequestsService.components := [silent; locked; silent] |}
    (Api.IdStr "1") Scenario.visitor Scenario.world
  = (Err (ActionFailure "locked"), Scenario.world).
Proof.
  intros locked silent.
  apply (delete_aborted_by_component _ (Api.IdStr "1") Scenario.visitor
           Scenario.world Scenario.world Scenario.world
           (Scenario.request_of Scenario.accepted_row)
           [silent] [silent] locked
           (fun _ _ => raise (ActionFailure "locked")));
    reflexivity.
Defined.

(** ** The moderation workflow on the generic request service *)

Lemma pretty_N_go_not_r (x : N) (s : string) :
  (forall t, s <> "r" +:+ t) ->
  forall t, pretty_N_go x s <> "r" +:+ t.
Proof.
  revert s. induction (N.lt_wf_0 x) as [x _ IH]. intros s Hs.
  destruct (decide (x = 0)%N) as [->|Hpos].
  - rewrite pretty_N_go_0. exact Hs.
  - rewrite pretty_N_go_step by lia. apply IH.
    + apply N.div_lt; lia.
    + intros t. unfold pretty_N_char. repeat case_match; discriminate.
Qed.

Lemma pretty_nat_not_r (n : nat) (t : string) : pretty n <> "r" +:+ t.
Proof.
  unfold pretty, pretty_nat, pretty, pretty_N.
  case_decide; [discriminate|].
  apply pretty_N_go_not_r. discriminate.
Qed.

Lemma created_number_is_no_key (w : World) :
  pretty (S (length (db w))) <> GenericService.fresh_key w.
Proof. apply (pretty_nat_not_r _ ("eq-" +:+ pretty (length (db w)))). Qed.

Lemma create_run (rs : RequestsService.t) identity doc T receiver creator topic w :
  RequestsService.permission_policy rs "create" identity None = true ->
  GenericService.create rs identity doc T receiver creator topic w =
    (let d := GenericService.created_doc doc T receiver creator topic in
     let row := GenericService.created_row w d in
     (Ok (GenericService.result_item {| data := d; model := row |}),
      {| db := db w ++ [row];
         search_index := if RequestsService.indexer rs
                         then <[GenericService.fresh_key w := d]> (search_index w)
                         else search_index w |})).
Proof.
  intros Hperm. unfold GenericService.create, bind,
    RequestsService.require_permission. rewrite Hperm. reflexivity.
Qed.

Lemma created_doc_lookup doc T receiver creator topic :
  let d := GenericService.created_doc doc T receiver creator topic in
  d !! "type" = Some (JStr (type_id T))
  /\ d !! "request_type" = Some (JStr (type_id T))
  /\ d !! "request_type_id" = Some (JStr (type_id T))
  /\ d !! "status" = Some (JStr "created")
  /\ d !! "receiver" = Some (JRef receiver)
  /\ d !! "created_by" = Some (JRef creator)
  /\ d !! "topic" = Some (JRef (UserModerationRequestService.entity_ref topic)).
Proof.
  unfold GenericService.created_doc. simpl.
  repeat split; repeat (rewrite lookup_insert_ne by discriminate);
    apply lookup_insert_eq.
Qed.

(** The request that [create] has just stored is found under its key. *)
Lemma get_request_created (rs : RequestsService.t) (w : World)
    (d : gmap string JsonVal) (T : RequestType) idx :
  (forall m, In m (db w) ->
     model_id m <> GenericService.fresh_key w
     /\ external_id m <> Some (GenericService.fresh_key w)) ->
  d !! "request_type" = Some (JStr (type_id T)) ->
  RequestsService.request_type_registry rs !! type_id T = Some T ->
  let row := GenericService.created_row w d in
  let w2 := {| db := (db w ++ [row])%list; search_index := idx |} in
  RequestsService._get_request rs (Api.IdUUID (GenericService.fresh_key w)) w2
  = (Ok {| data := d; model := row |}, w2).
Proof.
  intros Hfresh Hd Hreg row w2. rewrite get_request_run. f_equal. simpl.
  rewrite List.filter_app.
  rewrite (filter_nil_bool _ (db w)).
  2:{ intros m Hm. destruct (Hfresh m Hm) as [_ Hext].
      unfold Api.external_id_is. destruct (external_id m) as [e|]; [|reflexivity].
      apply bool_decide_eq_false. simpl. intros ->. apply Hext. reflexivity. }
  simpl. unfold Api.external_id_is at 1. simpl.
  rewrite bool_decide_eq_false_2 by apply created_number_is_no_key.
  unfold RequestsService.query_get. rewrite find_head_filter, List.filter_app.
  rewrite (filter_nil_bool _ (db w)).
  2:{ intros m Hm. destruct (Hfresh m Hm) as [Hid _]. simpl.
      apply bool_decide_eq_false. exact Hid. }
  simpl. rewrite bool_decide_eq_true_2 by reflexivity. simpl.
  rewrite Hd. simpl. rewrite Hreg. reflexivity.
Qed.

Lemma submit_created (reg : Registry) (request : Request) (identity : Identity)
    (w : World) :
  reg !! UserModerationRequestService.UserModeration_type_id
  = Some Transitions.UserModeration ->
  data request !! "request_type_id"
  = Some (JStr UserModerationRequestService.UserModeration_type_id) ->
  data request !! "status" = Some (JStr "created") ->
  Api.can_execute_action reg request "submit" identity = Ok true
  /\ Api.execute_action reg request "submit" identity w
     = Transitions.set_status "submitted" request w.
Proof.
  intros Hreg Htype Hstatus.
  assert (HT : Api.request_type reg request = Ok Transitions.UserModeration).
  { unfold Api.request_type. rewrite Htype, Hreg. reflexivity. }
  assert (Hcan : Transitions.status_in ["created"] request = true).
  { unfold Transitions.status_in, Transitions.status. rewrite Hstatus.
    apply bool_decide_eq_true. set_solver. }
  split.
  - unfold Api.can_execute_action.
    rewrite (get_action_registered reg request _ "submit" HT).
    change (available_actions Transitions.UserModeration !! "submit")
      with (Some (Transitions.transition Transitions.anyone ["created"] "submitted")).
    simpl. rewrite Hcan. reflexivity.
  - unfold Api.execute_action, bind, lift.
    rewrite (get_action_registered reg request _ "submit" HT).
    change (available_actions Transitions.UserModeration !! "submit")
      with (Some (Transitions.transition Transitions.anyone ["created"] "submitted")).
    simpl. rewrite Hcan. reflexivity.
Qed.

Lemma set_status_created (w : World) (d : gmap string JsonVal)
    (idx : gmap string (gmap string JsonVal)) (target : string) :
  (forall m, In m (db w) -> model_id m <> GenericService.fresh_key w) ->
  let row := GenericService.created_row w d in
  exists idx',
    Transitions.set_status target {| data := d; model := row |}
      {| db := (db w ++ [row])%list; search_index := idx |}
    = (Ok {| data := <["status" := JStr target]> d;
             model := GenericService.created_row w
                        (<["status" := JStr target]> d) |},
       {| db := db w ++ [GenericService.created_row w
                           (<["status" := JStr target]> d)];
          search_index := idx' |}).
Proof.
  intros Hfresh row. eexists. unfold Transitions.set_status. simpl.
  f_equal. f_equal. rewrite List.map_app. simpl.
  rewrite bool_decide_eq_true_2 by reflexivity. f_equal.
  rewrite <- (List.map_id (db w)) at 2. apply List.map_ext_in.
  intros m Hm. rewrite bool_decide_eq_false_2 by (apply Hfresh, Hm).
  reflexivity.
Qed.

(** C3 (amended). For a caller holding the [request_moderation] permission
    (and allowed to create by the requests service), with the system actor as
    creator, a topic that the resolver resolves and the user-moderation type
    registered: [request_moderation] creates a request of the user-moderation
    type through the generic creation path, with the resolved topic and with
    receiver and creator fixed to [{"user_moderation": system}], and
    immediately executes [submit] on it, so the request it returns has status
    [submitted].  The row the call adds to the table is that submitted
    request: no request in status [created] is left behind. *)
Theorem request_moderation_submitted (rs : RequestsService.t)
    (self : UserModerationRequestService.t) (identity : Identity)
    (topic : string) (input : option (gmap string JsonVal)) (w w1 : World)
    (proxy : UserModerationRequestService.EntityProxy)
    (user : UserModerationRequestService.Entity) :
  UserModerationRequestService.requests_service self = GenericService.api rs ->
  UserModerationRequestService.permission_policy self "request_moderation"
    identity = true ->
  RequestsService.permission_policy rs "create" identity None = true ->
  UserModerationRequestService.current_request_type_registry self
    !! UserModerationRequestService.UserModeration_type_id
  = Some Transitions.UserModeration ->
  RequestsService.request_type_registry rs
    !! UserModerationRequestService.UserModeration_type_id
  = Some Transitions.UserModeration ->
  UserModerationRequestService.resolve_entity_proxy self
    {| ref_kind := "user"; ref_id := topic |} = Ok proxy ->
  UserModerationRequestService.resolve proxy w = (Ok user, w1) ->
  (forall m, In m (db w1) ->
     model_id m <> GenericService.fresh_key w1
     /\ external_id m <> Some (GenericService.fresh_key w1)) ->
  exists res w',
    UserModerationRequestService.request_moderation self identity
      system_user_id topic input w = (Ok res, w')
    /\ Transitions.status (UserModerationRequestService.item_record res)
       = Some (JStr "submitted")
    /\ data (UserModerationRequestService.item_record res) !! "type"
       = Some (JStr UserModerationRequestService.UserModeration_type_id)
    /\ data (UserModerationRequestService.item_record res) !! "topic"
       = Some (JRef (UserModerationRequestService.entity_ref user))
    /\ data (UserModerationRequestService.item_record res) !! "receiver"
       = Some (JRef {| ref_kind := "user_moderation"; ref_id := system_user_id |})
    /\ data (UserModerationRequestService.item_record res) !! "created_by"
       = Some (JRef {| ref_kind := "user_moderation"; ref_id := system_user_id |})
    /\ db w' = (db w1 ++ [model (UserModerationRequestService.item_record res)])%list
    /\ model_data (model (UserModerationRequestService.item_record res))
       = data (UserModerationRequestService.item_record res).
Proof.
  intros Hsvc Hperm Hcreate Hcls Hreg Hproxy Huser Hfresh.
  rewrite (request_moderation_steps self identity topic input w Hperm).
  rewrite Hproxy, Huser. unfold UserModerationRequestService.request_type_cls.
  rewrite Hcls, Hsvc. simpl.
  rewrite create_run by exact Hcreate. cbv zeta.
  set (d := GenericService.created_doc _ _ _ _ _).
  destruct (created_doc_lookup (UserModerationRequestService.or_empty input)
              Transitions.UserModeration
              {| ref_kind := "user_moderation"; ref_id := system_user_id |}
              {| ref_kind := "user_moderation"; ref_id := system_user_id |}
              user) as (Htype & Hrt & Hrtid & Hstatus & Hrecv & Hby & Htopic).
  fold d in Htype, Hrt, Hrtid, Hstatus, Hrecv, Hby, Htopic.
  unfold GenericService.execute_action, RequestsService.execute_action, bind.
  change (UserModerationRequestService.item_id (GenericService.result_item _))
    with (Api.IdUUID (GenericService.fresh_key w1)).
  rewrite (get_request_created rs w1 d Transitions.UserModeration _ Hfresh Hrt Hreg).
  unfold lift.
  destruct (submit_created (RequestsService.request_type_registry rs)
              {| data := d; model := GenericService.created_row w1 d |}
              identity
              {| db := db w1 ++ [GenericService.created_row w1 d];
                 search_index :=
                   if RequestsService.indexer rs
                   then <[GenericService.fresh_key w1 := d]> (search_index w1)
                   else search_index w1 |}
              Hreg Hrtid Hstatus) as [Hcan Hrun].
  rewrite Hcan. simpl. rewrite Hrun.
  destruct (set_status_created w1 d
              (if RequestsService.indexer rs
               then <[GenericService.fresh_key w1 := d]> (search_index w1)
               else search_index w1) "submitted"
              (fun m Hm => proj1 (Hfresh m Hm))) as [idx' Hset].
  rewrite Hset. unfold ret.
  eexists. eexists. split; [reflexivity|]. simpl.
  unfold Transitions.status. simpl.
  repeat split;
    try (rewrite lookup_insert_ne by discriminate; assumption).
  apply lookup_insert_eq.
Qed.

Lemma request_moderation_submitted_witness :
  exists res w',
    UserModerationRequestService.request_moderation Scenario.svc
      Scenario.moderator system_user_id "42" None Scenario.world = (Ok res, w')
    /\ Transitions.status (UserModerationRequestService.item_record res)
       = Some (JStr "submitted")
    /\ data (UserModerationRequestService.item_record res) !! "type"
       = Some (JStr UserModerationRequestService.UserModeration_type_id)
    /\ data (UserModerationRequestService.item_record res) !! "topic"
       = Some (JRef Scenario.user_42)
    /\ data (UserModerationRequestService.item_record res) !! "receiver"
       = Some (JRef Scenario.moderation_actor)
    /\ data (UserModerationRequestService.item_record res) !! "created_by"
       = Some (JRef Scenario.moderation_actor)
    /\ db w' = (db Scenario.world
                ++ [model (UserModerationRequestService.item_record res)])%list
    /\ model_data (model (UserModerationRequestService.item_record res))
       = data (UserModerationRequestService.item_record res).
Proof.
  apply (request_moderation_submitted Scenario.rs Scenario.svc
           Scenario.moderator "42" None Scenario.world Scenario.world
           {| UserModerationRequestService.resolve :=
                ret {| UserModerationRequestService.entity_ref :=
                         Scenario.user_42 |} |}
           {| UserModerationRequestService.entity_ref := Scenario.user_42 |});
    try reflexivity.
  intros m Hm. simpl in Hm.
  repeat (destruct Hm as [<-|Hm]; [split; vm_compute; discriminate|]).
  destruct Hm.
Defined.
